(** * Sustentus dashboard charts: the derivation pipeline of
      [src/components/DashboardCharts.jsx], embedded and verified.

    The component keeps a flat list of mock project records and derives from
    it, on every render, the rows of a stacked bar chart and the rows of a
    drill-down table.  The embedding follows the JavaScript text: property
    values are JavaScript values (a string, a number or [undefined]), [===]
    is strict equality on them, a chart row is an object (an insertion-ordered
    list of properties), [Array.prototype.filter], [map] and [forEach] are
    [filter], [map] and [fold_left].

    Two abstractions are made and used throughout:
    - a [Date] is its time value, an integer number of milliseconds;
      [date.toISOString()] followed by [new Date(r.date)] gives back the same
      time value, so a record stores the time value itself;
    - [Math.random()] is a draw from a stream of rationals in [0, 1), and the
      arithmetic on a draw is exact. *)

From Stdlib Require Import List String Ascii ZArith QArith Qround Lia Lqa Bool.
From Stdlib Require Import DecimalString Finite.
Import ListNotations.

Open Scope string_scope.
Open Scope Z_scope.

(** ** JavaScript values and objects *)

Inductive value : Type :=
| undefined
| str (s : string)
| num (n : Z).

(** [a === b] on the values above. *)
Definition strict_eq (a b : value) : bool :=
  match a, b with
  | undefined, undefined => true
  | str s, str t => String.eqb s t
  | num n, num m => Z.eqb n m
  | _, _ => false
  end.

Infix "===" := strict_eq (at level 70, no associativity).

(** An object literal: its own properties in insertion order. *)
Definition object : Type := list (string * value).

(** [o[k]]; a missing property reads as [undefined]. *)
Fixpoint get_prop (k : string) (o : object) : value :=
  match o with
  | [] => undefined
  | (k', v) :: o' => if String.eqb k k' then v else get_prop k o'
  end.

(** [o[k] = v]: overwrite in place when the key exists, append otherwise. *)
Fixpoint set_prop (k : string) (v : value) (o : object) : object :=
  match o with
  | [] => [(k, v)]
  | (k', v') :: o' =>
      if String.eqb k k' then (k', v) :: o' else (k', v') :: set_prop k v o'
  end.

(** ** Records *)

Record ProjectRecord : Type := mkRecord {
  id : Z;
  project : string;
  industry : value;
  region : value;
  stage : value;
  date : Z;
  product : value;
  expert : value;
  csat : value
}.

(** ** The fixed enumerations of the component *)

Definition REGION_COLORS : object :=
  [ ("EMEA", str "#2563eb"); ("APAC", str "#f59e0b");
    ("NA", str "#ef4444"); ("LATAM", str "#a855f7") ].

Definition INDUSTRIES : list string := ["Retail"; "Manufacturing"; "Accountants"].
(** [Object.keys(REGION_COLORS)]. *)
Definition REGIONS : list string := map fst REGION_COLORS.
Definition PRODUCTS : list string := ["Core"; "Sync"; "Analytics"; "AI"].
Definition EXPERTS : list string := ["Ann"; "Ben"; "Chao"; "Dee"; "Evan"].
Definition CSAT_VALUES : list string := ["😀"; "🙂"; "😐"; "🙁"].
Definition STAGES : list string := ["Closed"; "Active"; "Proposal"].
Definition X_AXIS_TYPES : list string :=
  ["Industry"; "Region"; "Product"; "Expert"; "CSAT"].

(** ** The derivation pipeline *)

(** [records.filter(r => r.stage === stage && new Date(r.date) >= cutoff)] *)
Definition filterRecords (records : list ProjectRecord) (stage_ : string) (cutoff : Z)
  : list ProjectRecord :=
  filter (fun r => (stage r === str stage_) && (date r >=? cutoff)) records.

Definition getXAxisValues (xAxisType : string) : list string :=
  if String.eqb xAxisType "Industry" then INDUSTRIES
  else if String.eqb xAxisType "Region" then REGIONS
  else if String.eqb xAxisType "Product" then PRODUCTS
  else if String.eqb xAxisType "Expert" then EXPERTS
  else if String.eqb xAxisType "CSAT" then CSAT_VALUES
  else INDUSTRIES.

(** The predicate of the inner [filtered.filter] of [chartData]. *)
Definition inSegment (xAxisType value_ reg : string) (r : ProjectRecord) : bool :=
  if String.eqb xAxisType "Industry" then
    (industry r === str value_) && (region r === str reg)
  else if String.eqb xAxisType "Region" then
    (region r === str value_) && (region r === str reg)
  else if String.eqb xAxisType "Product" then
    (product r === str value_) && (region r === str reg)
  else if String.eqb xAxisType "Expert" then
    (expert r === str value_) && (region r === str reg)
  else if String.eqb xAxisType "CSAT" then
    (csat r === str value_) && (region r === str reg)
  else false.

Definition segmentCount (filtered : list ProjectRecord) (xAxisType value_ reg : string) : Z :=
  Z.of_nat (List.length (filter (inSegment xAxisType value_ reg) filtered)).

(** [chartData]: one row per x-axis value, one numeric property per region. *)
Definition chartData (filtered : list ProjectRecord) (xAxisType : string) : list object :=
  map (fun value_ =>
         let row := [(xAxisType, str value_)] in
         fold_left
           (fun row reg =>
              set_prop reg (num (segmentCount filtered xAxisType value_ reg)) row)
           REGIONS row)
      (getXAxisValues xAxisType).

(** The current selection, [{ xAxisValue, region }]; [None] is [null]. *)
Record Selection : Type := mkSelection {
  xAxisValue : value;
  sel_region : string
}.

Definition matchesXAxis (xAxisType : string) (sel : Selection) (r : ProjectRecord) : bool :=
  if String.eqb xAxisType "Industry" then industry r === xAxisValue sel
  else if String.eqb xAxisType "Region" then region r === xAxisValue sel
  else if String.eqb xAxisType "Product" then product r === xAxisValue sel
  else if String.eqb xAxisType "Expert" then expert r === xAxisValue sel
  else if String.eqb xAxisType "CSAT" then csat r === xAxisValue sel
  else false.

Definition tableRows (filtered : list ProjectRecord) (selected : option Selection)
           (xAxisType : string) : list ProjectRecord :=
  match selected with
  | None => []
  | Some sel =>
      filter (fun r => matchesXAxis xAxisType sel r && (region r === str (sel_region sel)))
             filtered
  end.

(** What the chart stacks for one row: the numeric property of a region. *)
Definition rowCount (row : object) (reg : string) : Z :=
  match get_prop reg row with
  | num n => n
  | _ => 0
  end.

Definition rowTotal (row : object) : Z :=
  fold_right Z.add 0 (map (rowCount row) REGIONS).

Definition chartTotal (rows : list object) : Z :=
  fold_right Z.add 0 (map rowTotal rows).

(** ** Helpers and mock data *)

(** [arr[i]] for an array of strings: [undefined] outside the array. *)
Definition array_get (arr : list string) (i : Z) : value :=
  if i <? 0 then undefined
  else match nth_error arr (Z.to_nat i) with
       | Some s => str s
       | None => undefined
       end.

(** The template literal [`${n}`] for an integer [n]. *)
Definition toString (n : Z) : string := NilZero.string_of_int (Z.to_int n).

(** Truncation toward zero, as the [Date] constructor applies to its
    argument. *)
Definition Qtrunc (q : Q) : Z :=
  if Qle_bool 0 q then Qfloor q else Qceiling q.

(** *** The random source

    The n-th call of [Math.random()] returns the n-th element of the source;
    a computation threads the number of draws made so far. *)
Definition RandomSource : Type := nat -> Q.

Definition Rand (A : Type) : Type := RandomSource -> nat -> A * nat.

Definition ret {A} (a : A) : Rand A := fun _ n => (a, n).

Definition bind {A B} (m : Rand A) (k : A -> Rand B) : Rand B :=
  fun src n => let (a, n') := m src n in k a src n'.

Notation "x <- m ;; k" := (bind m (fun x => k))
  (at level 61, m at next level, right associativity).

Definition Math_random : Rand Q := fun src n => (src n, S n).

Definition in_unit_interval (src : RandomSource) : Prop :=
  forall n, (0 <= src n)%Q /\ (src n < 1)%Q.

(** [arr[Math.floor(Math.random() * arr.length)]].  The product is taken
    exactly; the code rounds it to a double, which can move the index by one
    at the boundary between two elements and keeps it inside the array. *)
Definition randChoice (arr : list string) : Rand value :=
  u <- Math_random ;;
  ret (array_get arr (Qfloor (u * inject_Z (Z.of_nat (List.length arr))))).

Section Calendar.

(** [Date.prototype.getMonth] and [setMonth] of the runtime, on time
    values; they depend on the local time zone and are left abstract. *)
Variable getMonth : Z -> Z.
Variable setMonth : Z -> Z -> Z.

Definition addMonths (date_ m : Z) : Z := setMonth date_ (getMonth date_ + m).

(** The body of the [for] loop of [createMockData], run [n] more times.  The
    date is computed exactly and then truncated; the code rounds the sum to a
    double first, which can move the date by one millisecond and keeps it
    between [start] and [today]. *)
Fixpoint mockLoop (industries regions products experts csatValues stages : list string)
         (start today : Z) (n : nat) (id_ : Z) (out : list ProjectRecord)
  : Rand (list ProjectRecord) :=
  match n with
  | O => ret out
  | S n' =>
      u <- Math_random ;;
      let date_ := Qtrunc (inject_Z start + u * inject_Z (today - start)) in
      let id0 := id_ in
      let id_ := id_ + 1 in
      let project_ := "PRJ-" ++ toString id_ in
      industry_ <- randChoice industries ;;
      region_ <- randChoice regions ;;
      stage_ <- randChoice stages ;;
      product_ <- randChoice products ;;
      expert_ <- randChoice experts ;;
      csat_ <- randChoice csatValues ;;
      mockLoop industries regions products experts csatValues stages start today n' id_
               (out ++ [mkRecord id0 project_ industry_ region_ stage_ date_
                                 product_ expert_ csat_])
  end.

(** [createMockData({ industries, regions, products, experts, csatValues,
    monthsBack = 3 })], called at time [today]. *)
Definition createMockData (industries regions products experts csatValues : list string)
           (monthsBack : option Z) (today : Z) : Rand (list ProjectRecord) :=
  let monthsBack := match monthsBack with Some m => m | None => 3 end in
  let stages := ["Closed"; "Active"; "Proposal"] in
  let start := addMonths today (- monthsBack) in
  mockLoop industries regions products experts csatValues stages start today
           220 1 [].

End Calendar.

(** ** Component state and its transitions *)

(** The five [useState] cells and the record list fixed at mount.  The
    fields carry an [s_] prefix to keep them apart from the record fields. *)
Record State : Type := mkState {
  s_stage : string;
  s_granularity : string;
  s_selected : option Selection;
  s_xAxisType : string;
  s_isLoading : bool;
  s_records : list ProjectRecord
}.

Definition timeWindowMonths (granularity : string) : Z :=
  if String.eqb granularity "month" then 3
  else if String.eqb granularity "quarter" then 9
  else 12.

Definition setStage (v : string) (st : State) : State :=
  mkState v (s_granularity st) (s_selected st) (s_xAxisType st) (s_isLoading st)
          (s_records st).

Definition setGranularity (v : string) (st : State) : State :=
  mkState (s_stage st) v (s_selected st) (s_xAxisType st) (s_isLoading st)
          (s_records st).

Definition setSelected (v : option Selection) (st : State) : State :=
  mkState (s_stage st) (s_granularity st) v (s_xAxisType st) (s_isLoading st)
          (s_records st).

Definition setXAxisType (v : string) (st : State) : State :=
  mkState (s_stage st) (s_granularity st) (s_selected st) v (s_isLoading st)
          (s_records st).

Definition setIsLoading (v : bool) (st : State) : State :=
  mkState (s_stage st) (s_granularity st) (s_selected st) (s_xAxisType st) v
          (s_records st).

(** [handleXAxisChange] up to its [await]: the three updates of one batch. *)
Definition handleXAxisChange (newXAxisType : string) (st : State) : State :=
  setSelected None (setXAxisType newXAxisType (setIsLoading true st)).

(** [handleXAxisChange] after the 500 ms timer has fired. *)
Definition handleXAxisChange_resume (st : State) : State :=
  setIsLoading false st.

(** The "Clear selection" button. *)
Definition clearSelection (st : State) : State := setSelected None st.

Section Component.

Variable getMonth : Z -> Z.
Variable setMonth : Z -> Z -> Z.

(** What one render at time [now] derives from the state. *)
Definition cutoff (st : State) (now : Z) : Z :=
  addMonths getMonth setMonth now (- timeWindowMonths (s_granularity st)).

Definition filtered (st : State) (now : Z) : list ProjectRecord :=
  filterRecords (s_records st) (s_stage st) (cutoff st now).

Definition chartData_of (st : State) (now : Z) : list object :=
  chartData (filtered st now) (s_xAxisType st).

Definition tableRows_of (st : State) (now : Z) : list ProjectRecord :=
  tableRows (filtered st now) (s_selected st) (s_xAxisType st).

(** [onClick] of the [Bar] of region [reg], on the bar at index [idx] of the
    chart rendered at time [now]:
    [chartData[idx]?.[xAxisType]] and [setSelected({ xAxisValue, region })]. *)
Definition barClick (reg : string) (idx : nat) (now : Z) (st : State) : State :=
  let xAxisValue_ :=
    match nth_error (chartData_of st now) idx with
    | Some row => get_prop (s_xAxisType st) row
    | None => undefined
    end in
  setSelected (Some (mkSelection xAxisValue_ reg)) st.

(** The first render: the initial cells, and the records generated once. *)
Definition mount (today : Z) : Rand State :=
  records <- createMockData getMonth setMonth INDUSTRIES REGIONS PRODUCTS EXPERTS
               CSAT_VALUES (Some (timeWindowMonths "month")) today ;;
  ret (mkState "Active" "month" None "Industry" false records).

End Component.

(** ** The earlier standalone variant of the component

    It groups by industry only; its generator fixes products, experts and
    stages itself and draws the CSAT symbol inline. *)
Module Standalone.

Record Selection : Type := mkSelection {
  sel_industry : value;
  sel_region : string
}.

Definition timeWindowMonths (granularity : string) : Z :=
  if String.eqb granularity "month" then 3 else 9.

Definition chartData (filtered : list ProjectRecord) : list object :=
  map (fun ind =>
         let row := [("industry", str ind)] in
         fold_left
           (fun row reg =>
              set_prop reg
                (num (Z.of_nat (List.length
                   (filter (fun r => (industry r === str ind) && (region r === str reg))
                           filtered))))
                row)
           REGIONS row)
      INDUSTRIES.

Definition tableRows (filtered : list ProjectRecord) (selected : option Selection)
  : list ProjectRecord :=
  match selected with
  | None => []
  | Some sel =>
      filter (fun r => (industry r === sel_industry sel)
                       && (region r === str (sel_region sel)))
             filtered
  end.

Section Generator.

Variable getMonth : Z -> Z.
Variable setMonth : Z -> Z -> Z.

Fixpoint mockLoop (industries regions products experts stages : list string)
         (start today : Z) (n : nat) (id_ : Z) (out : list ProjectRecord)
  : Rand (list ProjectRecord) :=
  match n with
  | O => ret out
  | S n' =>
      u <- Math_random ;;
      let date_ := Qtrunc (inject_Z start + u * inject_Z (today - start)) in
      let id0 := id_ in
      let id_ := id_ + 1 in
      let project_ := "PRJ-" ++ toString id_ in
      industry_ <- randChoice industries ;;
      region_ <- randChoice regions ;;
      stage_ <- randChoice stages ;;
      product_ <- randChoice products ;;
      expert_ <- randChoice experts ;;
      w <- Math_random ;;
      let csat_ := array_get ["😀"; "🙂"; "😐"; "🙁"] (Qfloor (w * 4)) in
      mockLoop industries regions products experts stages start today n' id_
               (out ++ [mkRecord id0 project_ industry_ region_ stage_ date_
                                 product_ expert_ csat_])
  end.

Definition createMockData (industries regions : list string)
           (monthsBack : option Z) (today : Z) : Rand (list ProjectRecord) :=
  let monthsBack := match monthsBack with Some m => m | None => 3 end in
  let products := ["Core"; "Sync"; "Analytics"; "AI"] in
  let experts := ["Ann"; "Ben"; "Chao"; "Dee"; "Evan"] in
  let stages := ["Closed"; "Active"; "Proposal"] in
  let start := addMonths getMonth setMonth today (- monthsBack) in
  mockLoop industries regions products experts stages start today 220 1 [].

End Generator.

End Standalone.

(** ** Specification-side vocabulary *)

(** The record field a grouping dimension reads; no field for a name outside
    the five dimensions. *)
Definition fieldOf (xAxisType : string) (r : ProjectRecord) : option value :=
  if String.eqb xAxisType "Industry" then Some (industry r)
  else if String.eqb xAxisType "Region" then Some (region r)
  else if String.eqb xAxisType "Product" then Some (product r)
  else if String.eqb xAxisType "Expert" then Some (expert r)
  else if String.eqb xAxisType "CSAT" then Some (csat r)
  else None.

(** A record of the data model: each of the five grouping fields holds a
    value of its enumeration, as every record of [createMockData] called with
    the component's arrays does. *)
Definition enumerated (r : ProjectRecord) : Prop :=
  In (industry r) (map str INDUSTRIES) /\
  In (region r) (map str REGIONS) /\
  In (product r) (map str PRODUCTS) /\
  In (expert r) (map str EXPERTS) /\
  In (csat r) (map str CSAT_VALUES).

(** *** Counting *)

Definition sumZ {A} (f : A -> Z) (l : list A) : Z := fold_right Z.add 0 (map f l).

Definition b2z (b : bool) : Z := if b then 1 else 0.

(** The record has value [v] in the field of the grouping dimension. *)
Definition hasValue (xAxisType v : string) (r : ProjectRecord) : bool :=
  match fieldOf xAxisType r with
  | Some f => f === str v
  | None => false
  end.

(** The record falls in the segment of value [v] and region [reg]. *)
Definition matchesPair (xAxisType v reg : string) (r : ProjectRecord) : bool :=
  hasValue xAxisType v r && (region r === str reg).

(** The chart has a segment for the record: its grouping value and its region
    are among the enumerated ones. *)
Definition chartedb (xAxisType : string) (r : ProjectRecord) : bool :=
  existsb (fun v => hasValue xAxisType v r) (getXAxisValues xAxisType)
  && existsb (fun reg => region r === str reg) REGIONS.

(** The row built for value [v]: the category property, then one property per
    region in the order of [REGIONS]. *)
Definition rowOf (filtered : list ProjectRecord) (xAxisType v : string) : object :=
  (xAxisType, str v)
    :: map (fun reg => (reg, num (segmentCount filtered xAxisType v reg))) REGIONS.

(** *** What the generator produces *)

(** The element [randChoice] takes for the draw [u]. *)
Definition pick (arr : list string) (u : Q) : value :=
  array_get arr (Qfloor (u * inject_Z (Z.of_nat (List.length arr)))).

(** The record one iteration of the loop pushes, when it starts with counter
    [id_] and [k] draws already made: seven draws, the first for the date. *)
Definition mockRecord (industries regions products experts csatValues stages : list string)
           (start today : Z) (id_ : Z) (src : RandomSource) (k : nat) : ProjectRecord :=
  mkRecord id_ ("PRJ-" ++ toString (id_ + 1))
           (pick industries (src (1 + k)%nat))
           (pick regions (src (2 + k)%nat))
           (pick stages (src (3 + k)%nat))
           (Qtrunc (inject_Z start + src k * inject_Z (today - start)))
           (pick products (src (4 + k)%nat))
           (pick experts (src (5 + k)%nat))
           (pick csatValues (src (6 + k)%nat)).

(** What the generator promises of a record for the window [start, today]. *)
Definition valid_record (start today : Z) (r : ProjectRecord) : Prop :=
  In (industry r) (map str INDUSTRIES) /\
  In (region r) (map str REGIONS) /\
  In (stage r) (map str STAGES) /\
  In (product r) (map str PRODUCTS) /\
  In (expert r) (map str EXPERTS) /\
  In (csat r) (map str CSAT_VALUES) /\
  start <= date r <= today.

Fixpoint mockRecords (industries regions products experts csatValues stages : list string)
         (start today : Z) (n : nat) (id_ : Z) (src : RandomSource) (k : nat)
  : list ProjectRecord :=
  match n with
  | O => []
  | S n' =>
      mockRecord industries regions products experts csatValues stages start today
                 id_ src k
      :: mockRecords industries regions products experts csatValues stages start today
                     n' (id_ + 1) src (7 + k)
  end.

(** ** The rest of the component *)

(** *** [getValueColor] *)

(** The palette of [getValueColor]. *)
Definition COLORS : list string :=
  ["#2563eb"; "#f59e0b"; "#ef4444"; "#a855f7"; "#10b981"; "#f97316"; "#8b5cf6"; "#ec4899"].

(** The property names every object literal inherits from [Object.prototype];
    reading one of them from [REGION_COLORS] gives the inherited member. *)
Definition OBJECT_PROTOTYPE_KEYS : list string :=
  ["constructor"; "hasOwnProperty"; "isPrototypeOf"; "propertyIsEnumerable";
   "toLocaleString"; "toString"; "valueOf"; "__proto__";
   "__defineGetter__"; "__defineSetter__"; "__lookupGetter__"; "__lookupSetter__"].

(** What [getValueColor] returns: a string or [undefined], or the inherited
    member of that name. *)
Inductive Color : Type :=
| color_value (v : value)
| color_inherited (k : string).

(** [ToBoolean] on values. *)
Definition truthy (v : value) : bool :=
  match v with
  | undefined => false
  | str s => negb (String.eqb s "")
  | num n => negb (Z.eqb n 0)
  end.

(** [arr.indexOf(v)], searching from position [i]: the first index, or -1. *)
Fixpoint indexOf_from (arr : list string) (v : string) (i : Z) : Z :=
  match arr with
  | [] => -1
  | a :: arr' => if String.eqb a v then i else indexOf_from arr' v (i + 1)
  end.

Definition indexOf (arr : list string) (v : string) : Z := indexOf_from arr v 0.

(** [getValueColor(value)] for the grouping dimension [xAxisType]; [%] is the
    remainder that takes the sign of the dividend. *)
Definition getValueColor (xAxisType value_ : string) : Color :=
  if String.eqb xAxisType "Region" then
    let own := get_prop value_ REGION_COLORS in
    if truthy own then color_value own
    else if existsb (String.eqb value_) OBJECT_PROTOTYPE_KEYS then color_inherited value_
    else color_value (str "#6b7280")
  else
    let index := indexOf (getXAxisValues xAxisType) value_ in
    color_value (array_get COLORS (Z.rem index (Z.of_nat (List.length COLORS)))).

(** *** [Segmented] *)

(** An option of a segmented control: a string, or [{ label, value }]. *)
Inductive SegOption : Type :=
| opt_string (s : string)
| opt_object (label value_ : string).

(** [typeof o === "string" ? { label: o, value: o } : o] *)
Definition normalizeOption (o : SegOption) : SegOption :=
  match o with
  | opt_string s => opt_object s s
  | opt_object l v => opt_object l v
  end.

Definition opt_label (o : SegOption) : string :=
  match o with opt_string s => s | opt_object l _ => l end.

Definition opt_value (o : SegOption) : string :=
  match o with opt_string s => s | opt_object _ v => v end.

(** A rendered button: its key, whether it carries the highlighted class,
    its text, and the argument its [onClick] passes to [onChange]. *)
Record Button : Type := mkButton {
  b_key : string;
  b_active : bool;
  b_label : string;
  b_arg : string
}.

Definition Segmented (value_ : string) (options : list SegOption) : list Button :=
  let opts := map normalizeOption options in
  map (fun o => mkButton (opt_value o) (String.eqb (opt_value o) value_)
                         (opt_label o) (opt_value o))
      opts.

Definition STAGE_OPTIONS : list SegOption :=
  [opt_string "Closed"; opt_string "Active"; opt_string "Proposal"].

Definition TIME_OPTIONS : list SegOption :=
  [opt_object "Month" "month"; opt_object "Quarter" "quarter"; opt_object "Year" "year"].

Definition GRANULARITIES : list string := ["month"; "quarter"; "year"].

(** *** The events of the page *)

(** What the user and the timer can do: press the i-th button of the Stage
    or Time control, pick an option of the X-Axis select, press a segment of
    the bar of region [reg] at index [idx], press "Clear selection"; and a
    pending 500 ms timer can fire. *)
Inductive event : Type :=
| ClickStage (i : nat)
| ClickTime (i : nat)
| SelectXAxis (x : string)
| TimerFired
| ClickBar (reg : string) (idx : nat)
| ClickClear.

Section Page.

Variable getMonth : Z -> Z.
Variable setMonth : Z -> Z -> Z.

(** One event on the page rendered at time [now]; the second component
    counts the timers started and not yet fired.  [None]: the page offers no
    such control (a button that is not rendered, the select while it is
    disabled or a value it has no option for, no timer to fire). *)
Definition dispatch (now : Z) (e : event) (sys : State * nat) : option (State * nat) :=
  let (st, timers) := sys in
  match e with
  | ClickStage i =>
      match nth_error (Segmented (s_stage st) STAGE_OPTIONS) i with
      | Some b => Some (setStage (b_arg b) st, timers)
      | None => None
      end
  | ClickTime i =>
      match nth_error (Segmented (s_granularity st) TIME_OPTIONS) i with
      | Some b => Some (setGranularity (b_arg b) st, timers)
      | None => None
      end
  | SelectXAxis x =>
      if s_isLoading st then None
      else if existsb (String.eqb x) X_AXIS_TYPES
           then Some (handleXAxisChange x st, S timers)
           else None
  | TimerFired =>
      match timers with
      | O => None
      | S timers' => Some (handleXAxisChange_resume st, timers')
      end
  | ClickBar reg idx =>
      if existsb (String.eqb reg) REGIONS
      then Some (barClick getMonth setMonth reg idx now st, timers)
      else None
  | ClickClear =>
      match s_selected st with
      | Some _ => Some (clearSelection st, timers)
      | None => None
      end
  end.

(** A session: events, each with the time of the render it acts on. *)
Fixpoint run (events : list (Z * event)) (sys : State * nat) : option (State * nat) :=
  match events with
  | [] => Some sys
  | (now, e) :: events' =>
      match dispatch now e sys with
      | Some sys' => run events' sys'
      | None => None
      end
  end.

End Page.

(** The selection is one the chart of dimension [xAxisType] can produce: a
    region of the chart, and the label of one of its bars, or [undefined]
    for an index past the last bar. *)
Definition selection_of_chart (xAxisType : string) (selected : option Selection) : Prop :=
  match selected with
  | None => True
  | Some sel =>
      In (sel_region sel) REGIONS /\
      (xAxisValue sel = undefined \/
       exists v, In v (getXAxisValues xAxisType) /\ xAxisValue sel = str v)
  end.

(** What every state of a session satisfies, for the records of the mount. *)
Definition page_invariant (records0 : list ProjectRecord) (sys : State * nat) : Prop :=
  let (st, timers) := sys in
  In (s_stage st) STAGES /\
  In (s_granularity st) GRANULARITIES /\
  In (s_xAxisType st) X_AXIS_TYPES /\
  selection_of_chart (s_xAxisType st) (s_selected st) /\
  timers = (if s_isLoading st then 1%nat else 0%nat) /\
  s_records st = records0.

(** The click handler of the standalone variant: [chartData[idx]?.industry]
    and [setSelected({ industry, region })], as the new selection. *)
Definition standalone_click (filtered_ : list ProjectRecord) (reg : string) (idx : nat)
  : Standalone.Selection :=
  let industry_ :=
    match nth_error (Standalone.chartData filtered_) idx with
    | Some row => get_prop "industry" row
    | None => undefined
    end in
  Standalone.mkSelection industry_ reg.

(** A 30-day-month calendar and a periodic random source, to run the
    definitions on. *)
Definition sample_getMonth (d : Z) : Z := (d / 2592000000) mod 12.
Definition sample_setMonth (d m : Z) : Z := d + (m - sample_getMonth d) * 2592000000.
Definition sample_source : RandomSource :=
  fun n => (Z.of_nat (Nat.modulo (n * 37) 101) # 101)%Q.
Definition sample_now : Z := 1700000000000.

Definition sample_records : list ProjectRecord :=
  [ mkRecord 1 "PRJ-2" (str "Retail") (str "EMEA") (str "Active") 1699000000000
             (str "Core") (str "Ann") (str "🙂");
    mkRecord 2 "PRJ-3" (str "Retail") (str "APAC") (str "Active") 1699500000000
             (str "Sync") (str "Ben") (str "😀");
    mkRecord 3 "PRJ-4" (str "Manufacturing") (str "EMEA") (str "Closed") 1699600000000
             (str "AI") (str "Dee") (str "😐");
    mkRecord 4 "PRJ-5" (str "Retail") (str "EMEA") (str "Active") 1600000000000
             (str "Core") (str "Evan") (str "🙁") ].

Definition sample_state : State :=
  mkState "Active" "month" None "Industry" false sample_records.

(** The session ran to its end. *)
Definition completed (r : option (State * nat)) : bool :=
  match r with Some _ => true | None => false end.

(** A session on the page mounted at [sample_now]. *)
Definition sample_session : list (Z * event) :=
  [ (sample_now, ClickBar "EMEA" 0); (sample_now, ClickStage 0);
    (sample_now, SelectXAxis "Region"); (sample_now, ClickBar "NA" 2);
    (sample_now, TimerFired); (sample_now, ClickTime 2); (sample_now, ClickClear) ].

Definition sample_mount : State :=
  fst (mount sample_getMonth sample_setMonth sample_now sample_source 0%nat).

(** A record of a region the dashboard has no colour for. *)
Definition stray_record : ProjectRecord :=
  mkRecord 1 "PRJ-2" (str "Retail") (str "ANZ") (str "Active") 1699000000000
           (str "Core") (str "Ann") (str "🙂").

(** ** Basic facts *)

Lemma strict_eq_true (a b : value) : (a === b) = true <-> a = b.
Proof.
  destruct a, b; simpl; split; intro H; try discriminate; try reflexivity.
  - apply String.eqb_eq in H. now subst.
  - injection H as ->. apply String.eqb_refl.
  - apply Z.eqb_eq in H. now subst.
  - injection H as ->. apply Z.eqb_refl.
Qed.

Lemma strict_eq_refl (a : value) : (a === a) = true.
Proof. now apply strict_eq_true. Qed.

Lemma filter_idempotent {A} (p : A -> bool) (l : list A) :
  filter p (filter p l) = filter p l.
Proof.
  induction l as [|a l IH]; simpl; [reflexivity|].
  destruct (p a) eqn:E; simpl; rewrite ?E, IH; reflexivity.
Qed.

Lemma filter_In_occurrences {A} (p : A -> bool) (l : list A) :
  forall l1 x l2, filter p l = (l1 ++ x :: l2)%list ->
  exists k1 k2, l = (k1 ++ x :: k2)%list /\ filter p k1 = l1 /\ filter p k2 = l2.
Proof.
  induction l as [|a l IH]; simpl; intros l1 x l2 H.
  - destruct l1; discriminate.
  - destruct (p a) eqn:E.
    + destruct l1 as [|b l1]; simpl in H; injection H as <- H.
      * exists [], l. simpl. auto.
      * destruct (IH _ _ _ H) as (k1 & k2 & -> & <- & <-).
        exists (a :: k1), k2. simpl. rewrite E. auto.
    + destruct (IH _ _ _ H) as (k1 & k2 & -> & <- & <-).
      exists (a :: k1), k2. simpl. rewrite E. auto.
Qed.

Lemma fieldOf_matchesXAxis (xAxisType : string) (sel : Selection) (r : ProjectRecord) :
  matchesXAxis xAxisType sel r = true <-> fieldOf xAxisType r = Some (xAxisValue sel).
Proof.
  unfold matchesXAxis, fieldOf.
  repeat match goal with
         | |- context [String.eqb ?a ?b] => destruct (String.eqb a b)
         end;
    rewrite ?strict_eq_true; split; intro H; try congruence; try discriminate.
Qed.

(** ** Filtering *)

Lemma filterRecords_In (records : list ProjectRecord) (stage_ : string) (cutoff_ : Z)
      (r : ProjectRecord) :
  In r (filterRecords records stage_ cutoff_) <->
  In r records /\ stage r = str stage_ /\ cutoff_ <= date r.
Proof.
  unfold filterRecords. rewrite filter_In, andb_true_iff.
  rewrite strict_eq_true, Z.geb_le. tauto.
Qed.

(** C2: [filterRecords] returns exactly the records of the input whose stage
    is the given stage and whose date is at or after the cutoff: a record is in
    the result if and only if it is in the input and meets both conditions,
    and the result keeps the input's order and multiplicities (every
    occurrence in the result is an occurrence in the input, with the kept
    records before and after it being the filtered prefix and suffix). *)
Theorem filterRecords_exact (records : list ProjectRecord) (stage_ : string) (cutoff_ : Z) :
  (forall r, In r (filterRecords records stage_ cutoff_) <->
             In r records /\ stage r = str stage_ /\ cutoff_ <= date r) /\
  (forall l1 r l2, filterRecords records stage_ cutoff_ = (l1 ++ r :: l2)%list ->
     exists k1 k2, records = (k1 ++ r :: k2)%list /\
                   filterRecords k1 stage_ cutoff_ = l1 /\
                   filterRecords k2 stage_ cutoff_ = l2).
Proof.
  split.
  - intros r. apply filterRecords_In.
  - intros l1 r l2 H. unfold filterRecords in *.
    now apply filter_In_occurrences.
Qed.

(** ** Drill-down *)

(** C3: with a selection in place, every row of the drill-down table is a row
    of the [filterRecords] result, hence a record of the input with the
    current stage and a date at or after the cutoff, and it carries the
    selected value in the field of the grouping dimension and the selected
    region. *)
Theorem tableRows_sound (records : list ProjectRecord) (stage_ : string) (cutoff_ : Z)
        (xAxisType : string) (sel : Selection) (r : ProjectRecord) :
  In r (tableRows (filterRecords records stage_ cutoff_) (Some sel) xAxisType) ->
  In r (filterRecords records stage_ cutoff_) /\
  In r records /\
  stage r = str stage_ /\
  cutoff_ <= date r /\
  fieldOf xAxisType r = Some (xAxisValue sel) /\
  region r = str (sel_region sel).
Proof.
  simpl. rewrite filter_In, andb_true_iff, strict_eq_true, fieldOf_matchesXAxis.
  intros (Hin & Hx & Hr).
  pose proof (proj1 (filterRecords_In records stage_ cutoff_ r) Hin) as (H1 & H2 & H3).
  tauto.
Qed.

Lemma tableRows_sound_witness :
  let r := mkRecord 1 "PRJ-2" (str "Retail") (str "EMEA") (str "Active") 1699000000000
                    (str "Core") (str "Ann") (str "🙂") in
  let sel := mkSelection (str "Retail") "EMEA" in
  In r (tableRows (filterRecords sample_records "Active" 1692224000000) (Some sel)
                  "Industry") /\
  In r (filterRecords sample_records "Active" 1692224000000) /\
  fieldOf "Industry" r = Some (str "Retail") /\
  region r = str "EMEA".
Proof.
  intros r sel.
  assert (H : In r (tableRows (filterRecords sample_records "Active" 1692224000000)
                              (Some sel) "Industry")).
  { vm_compute. left. reflexivity. }
  split; [exact H|].
  destruct (tableRows_sound sample_records "Active" 1692224000000 "Industry" sel r H)
    as (H1 & _ & _ & _ & H5 & H6).
  split; [exact H1|]. split; [exact H5|exact H6].
Defined.

(** The drill-down of the standalone variant obeys the same bound. *)
Lemma standalone_tableRows_sound (records : list ProjectRecord) (stage_ : string)
      (cutoff_ : Z) (sel : Standalone.Selection) (r : ProjectRecord) :
  In r (Standalone.tableRows (filterRecords records stage_ cutoff_) (Some sel)) ->
  In r (filterRecords records stage_ cutoff_) /\
  stage r = str stage_ /\ cutoff_ <= date r /\
  industry r = Standalone.sel_industry sel /\
  region r = str (Standalone.sel_region sel).
Proof.
  simpl. rewrite filter_In, andb_true_iff, !strict_eq_true.
  intros (Hin & Hx & Hr).
  pose proof (proj1 (filterRecords_In records stage_ cutoff_ r) Hin) as (H1 & H2 & H3).
  tauto.
Qed.

(** ** Purity and idempotence *)

Lemma tableRows_idempotent (l : list ProjectRecord) (selected : option Selection)
      (xAxisType : string) :
  tableRows (tableRows l selected xAxisType) selected xAxisType
  = tableRows l selected xAxisType.
Proof.
  destruct selected as [sel|]; simpl; [apply filter_idempotent|reflexivity].
Qed.

(** C6: the three derivations are functions of their arguments alone (equal
    arguments give equal results), and filtering twice with the same stage
    and cutoff, or drilling down twice with the same selection and dimension,
    gives what doing it once gives. *)
Theorem pipeline_pure_idempotent :
  (forall rs s c, filterRecords (filterRecords rs s c) s c = filterRecords rs s c) /\
  (forall l sel x, tableRows (tableRows l (Some sel) x) (Some sel) x
                   = tableRows l (Some sel) x) /\
  (forall rs rs' s s' c c', rs = rs' -> s = s' -> c = c' ->
     filterRecords rs s c = filterRecords rs' s' c') /\
  (forall l l' x x', l = l' -> x = x' -> chartData l x = chartData l' x') /\
  (forall l l' sel sel' x x', l = l' -> sel = sel' -> x = x' ->
     tableRows l sel x = tableRows l' sel' x').
Proof.
  repeat split; intros; subst; try reflexivity.
  - apply filter_idempotent.
  - apply tableRows_idempotent.
Qed.

Lemma pipeline_pure_idempotent_witness :
  filterRecords (filterRecords sample_records "Active" 0) "Active" 0
  = filterRecords sample_records "Active" 0.
Proof.
  exact (proj1 pipeline_pure_idempotent sample_records "Active" 0).
Defined.

(** ** State transitions *)

(** C5: changing the grouping dimension clears the selection and switches the
    loading flag on; it stores the new dimension and leaves the records, the
    stage and the granularity as they were. *)
Theorem handleXAxisChange_frame (st : State) (newXAxisType : string) :
  let st' := handleXAxisChange newXAxisType st in
  s_selected st' = None /\
  s_isLoading st' = true /\
  s_xAxisType st' = newXAxisType /\
  s_records st' = s_records st /\
  s_stage st' = s_stage st /\
  s_granularity st' = s_granularity st.
Proof. simpl. repeat split. Qed.

(** When the timer fires only the loading flag changes: it goes off. *)
Lemma handleXAxisChange_resume_frame (st : State) :
  let st' := handleXAxisChange_resume st in
  s_isLoading st' = false /\
  s_selected st' = s_selected st /\
  s_xAxisType st' = s_xAxisType st /\
  s_records st' = s_records st /\
  s_stage st' = s_stage st /\
  s_granularity st' = s_granularity st.
Proof. simpl. repeat split. Qed.

Lemma mount_selected getMonth setMonth today src n :
  s_selected (fst (mount getMonth setMonth today src n)) = None.
Proof.
  unfold mount, bind, ret.
  destruct (createMockData _ _ _ _ _ _ _ _ _ _ _); reflexivity.
Qed.

(** C7: with no selection the drill-down table is the empty list, for every
    stage, granularity, grouping dimension, record list and render time; this
    is so in the state the component mounts in and in the state the "Clear
    selection" button leaves.  The derivation is a total function: the empty
    list is its value, not a failure. *)
Theorem no_selection_no_rows getMonth setMonth :
  (forall st now, s_selected st = None -> tableRows_of getMonth setMonth st now = []) /\
  (forall st now, tableRows_of getMonth setMonth (clearSelection st) now = []) /\
  (forall today src n now,
     tableRows_of getMonth setMonth (fst (mount getMonth setMonth today src n)) now = []) /\
  (forall st now, exists rows chart,
     tableRows_of getMonth setMonth st now = rows /\
     chartData_of getMonth setMonth st now = chart).
Proof.
  split; [|split; [|split]].
  - intros st now H. unfold tableRows_of. now rewrite H.
  - intros st now. reflexivity.
  - intros today src n now. unfold tableRows_of. now rewrite mount_selected.
  - intros st now. eauto.
Qed.

Lemma no_selection_no_rows_witness :
  s_selected sample_state = None /\
  tableRows_of sample_getMonth sample_setMonth sample_state sample_now = [].
Proof.
  split; [reflexivity|].
  exact (proj1 (no_selection_no_rows sample_getMonth sample_setMonth)
               sample_state sample_now eq_refl).
Defined.

(** ** Chart rows *)

Lemma sumZ_cons {A} (f : A -> Z) a l : sumZ f (a :: l) = f a + sumZ f l.
Proof. reflexivity. Qed.

Lemma sumZ_add {A} (f g : A -> Z) l :
  sumZ (fun a => f a + g a) l = sumZ f l + sumZ g l.
Proof. induction l as [|a l IH]; rewrite ?sumZ_cons, ?IH; [reflexivity|lia]. Qed.

Lemma sumZ_scale {A} (c : Z) (g : A -> Z) l :
  sumZ (fun a => c * g a) l = c * sumZ g l.
Proof. induction l as [|a l IH]; rewrite ?sumZ_cons, ?IH; [cbn; lia|lia]. Qed.

Lemma sumZ_ext_in {A} (f g : A -> Z) l :
  (forall a, In a l -> f a = g a) -> sumZ f l = sumZ g l.
Proof.
  induction l as [|a l IH]; intros H; [reflexivity|].
  rewrite !sumZ_cons, (H a), IH; auto using in_eq, in_cons.
Qed.

Lemma sumZ_zero {A} (f : A -> Z) l :
  (forall a, In a l -> f a = 0) -> sumZ f l = 0.
Proof.
  induction l as [|a l IH]; intros H; [reflexivity|].
  rewrite sumZ_cons, (H a), IH; auto using in_eq, in_cons.
Qed.

Lemma b2z_andb (a b : bool) : b2z (a && b) = b2z a * b2z b.
Proof. destruct a, b; reflexivity. Qed.

(** Among distinct candidates at most one equals a given value. *)
Lemma sum_indicator (p : string -> bool) (vs : list string) :
  NoDup vs ->
  (forall v w, p v = true -> p w = true -> v = w) ->
  sumZ (fun v => b2z (p v)) vs = b2z (existsb p vs).
Proof.
  intros Hnd Huniq. induction Hnd as [|v vs Hnot Hnd IH]; [reflexivity|].
  rewrite sumZ_cons, IH. simpl. destruct (p v) eqn:E; [|reflexivity].
  simpl. destruct (existsb p vs) eqn:Ex; [|reflexivity].
  apply existsb_exists in Ex as (w & Hin & Hw).
  rewrite (Huniq _ _ E Hw) in Hnot. contradiction.
Qed.

Lemma hasValue_unique xAxisType r v w :
  hasValue xAxisType v r = true -> hasValue xAxisType w r = true -> v = w.
Proof.
  unfold hasValue. destruct (fieldOf xAxisType r); [|discriminate].
  rewrite !strict_eq_true. congruence.
Qed.

Lemma inSegment_matchesPair xAxisType v reg r :
  inSegment xAxisType v reg r = matchesPair xAxisType v reg r.
Proof.
  unfold inSegment, matchesPair, hasValue, fieldOf.
  repeat match goal with
         | |- context [String.eqb ?a ?b] => destruct (String.eqb a b)
         end; reflexivity.
Qed.

Lemma NoDup_REGIONS : NoDup REGIONS.
Proof. repeat constructor; simpl; intuition discriminate. Qed.

Lemma NoDup_getXAxisValues xAxisType : NoDup (getXAxisValues xAxisType).
Proof.
  unfold getXAxisValues.
  repeat match goal with
         | |- context [String.eqb ?a ?b] => destruct (String.eqb a b)
         end; repeat constructor; simpl; intuition discriminate.
Qed.

Lemma chartData_rows filtered xAxisType :
  In xAxisType X_AXIS_TYPES ->
  chartData filtered xAxisType
  = map (rowOf filtered xAxisType) (getXAxisValues xAxisType).
Proof.
  intros H. simpl in H.
  repeat (destruct H as [<-|H]; [reflexivity|]). contradiction.
Qed.

Lemma rowOf_get_region filtered xAxisType v reg :
  In xAxisType X_AXIS_TYPES -> In reg REGIONS ->
  get_prop reg (rowOf filtered xAxisType v)
  = num (segmentCount filtered xAxisType v reg).
Proof.
  intros Hx Hr. simpl in Hx, Hr.
  repeat (destruct Hx as [<-|Hx]; [repeat (destruct Hr as [<-|Hr]; [reflexivity|]);
                                   contradiction|]).
  contradiction.
Qed.

Lemma rowOf_get_category filtered xAxisType v :
  get_prop xAxisType (rowOf filtered xAxisType v) = str v.
Proof. simpl. now rewrite String.eqb_refl. Qed.

Lemma segmentCount_cons r l xAxisType v reg :
  segmentCount (r :: l) xAxisType v reg
  = b2z (inSegment xAxisType v reg r) + segmentCount l xAxisType v reg.
Proof.
  unfold segmentCount. simpl filter.
  destruct (inSegment xAxisType v reg r); simpl b2z; simpl List.length; lia.
Qed.

Lemma segmentCount_matchesPair l xAxisType v reg :
  segmentCount l xAxisType v reg
  = Z.of_nat (List.length (filter (matchesPair xAxisType v reg) l)).
Proof.
  unfold segmentCount. f_equal. f_equal.
  apply filter_ext. intros r. apply inSegment_matchesPair.
Qed.

(** One record adds one to exactly one segment when the chart has a segment
    for it, and to none otherwise. *)
Lemma record_indicator xAxisType r :
  sumZ (fun v => sumZ (fun reg => b2z (inSegment xAxisType v reg r)) REGIONS)
       (getXAxisValues xAxisType)
  = b2z (chartedb xAxisType r).
Proof.
  unfold chartedb. rewrite b2z_andb.
  rewrite <- (sum_indicator (fun v => hasValue xAxisType v r))
    by (apply NoDup_getXAxisValues || (intros v w; apply hasValue_unique)).
  rewrite <- (sum_indicator (fun reg => region r === str reg) REGIONS).
  - rewrite Z.mul_comm, <- sumZ_scale.
    apply sumZ_ext_in. intros v _.
    rewrite Z.mul_comm, <- sumZ_scale.
    apply sumZ_ext_in. intros reg _.
    now rewrite inSegment_matchesPair, <- b2z_andb.
  - apply NoDup_REGIONS.
  - intros v w. rewrite !strict_eq_true. congruence.
Qed.

Lemma segment_total xAxisType l :
  sumZ (fun v => sumZ (fun reg => segmentCount l xAxisType v reg) REGIONS)
       (getXAxisValues xAxisType)
  = Z.of_nat (List.length (filter (chartedb xAxisType) l)).
Proof.
  induction l as [|r l IH].
  - apply sumZ_zero. intros v _. apply sumZ_zero. reflexivity.
  - rewrite (sumZ_ext_in _
      (fun v => sumZ (fun reg => b2z (inSegment xAxisType v reg r)) REGIONS
                + sumZ (fun reg => segmentCount l xAxisType v reg) REGIONS)).
    + rewrite sumZ_add, IH, record_indicator. simpl filter.
      destruct (chartedb xAxisType r); simpl b2z; simpl List.length; lia.
    + intros v _. rewrite <- sumZ_add. apply sumZ_ext_in.
      intros reg _. apply segmentCount_cons.
Qed.

Lemma rowTotal_rowOf filtered xAxisType v :
  In xAxisType X_AXIS_TYPES ->
  rowTotal (rowOf filtered xAxisType v)
  = sumZ (fun reg => segmentCount filtered xAxisType v reg) REGIONS.
Proof.
  intros Hx. unfold rowTotal. apply sumZ_ext_in. intros reg Hr.
  unfold rowCount. now rewrite rowOf_get_region.
Qed.

Lemma chartTotal_chartData filtered xAxisType :
  In xAxisType X_AXIS_TYPES ->
  chartTotal (chartData filtered xAxisType)
  = sumZ (fun v => sumZ (fun reg => segmentCount filtered xAxisType v reg) REGIONS)
         (getXAxisValues xAxisType).
Proof.
  intros Hx. rewrite chartData_rows by assumption.
  unfold chartTotal. rewrite map_map.
  apply sumZ_ext_in. intros v _. now apply rowTotal_rowOf.
Qed.

Lemma filter_all {A} (p : A -> bool) (l : list A) :
  forallb p l = true -> filter p l = l.
Proof.
  induction l as [|a l IH]; simpl; [reflexivity|].
  rewrite andb_true_iff. intros [-> H]. now rewrite IH.
Qed.

(** For each of the five grouping dimensions and any record list: the chart
    has one row per grouping value, in the order of the enumeration; the row
    of value [v] carries [v] and, for every region, the number of filtered
    records with value [v] and that region; and the sum of all region counts
    of all rows is the number of filtered records whose grouping value and
    region are among the enumerated ones, each counted once. *)
Lemma chart_counts_charted (filtered_ : list ProjectRecord) (xAxisType : string) :
  In xAxisType X_AXIS_TYPES ->
  let chart := chartData filtered_ xAxisType in
  (forall i v, nth_error (getXAxisValues xAxisType) i = Some v ->
     exists row, nth_error chart i = Some row /\
       get_prop xAxisType row = str v /\
       forall reg, In reg REGIONS ->
         get_prop reg row
         = num (Z.of_nat (List.length (filter (matchesPair xAxisType v reg) filtered_)))) /\
  List.length chart = List.length (getXAxisValues xAxisType) /\
  chartTotal chart = Z.of_nat (List.length (filter (chartedb xAxisType) filtered_)).
Proof.
  intros Hx chart. split; [|split].
  - intros i v Hv. exists (rowOf filtered_ xAxisType v). split; [|split].
    + unfold chart. rewrite chartData_rows by assumption.
      now apply map_nth_error.
    + apply rowOf_get_category.
    + intros reg Hr. rewrite rowOf_get_region by assumption.
      now rewrite segmentCount_matchesPair.
  - unfold chart. rewrite chartData_rows by assumption. apply length_map.
  - unfold chart. rewrite chartTotal_chartData by assumption. apply segment_total.
Qed.

Lemma enumerated_field (xAxisType : string) (r : ProjectRecord) :
  In xAxisType X_AXIS_TYPES -> enumerated r ->
  exists v, In v (getXAxisValues xAxisType) /\ fieldOf xAxisType r = Some (str v).
Proof.
  intros Hx (Hi & Hr & Hp & He & Hc). simpl in Hx.
  repeat (destruct Hx as [<-|Hx];
          [match goal with
           | H : In _ (map str ?vs) |- context [getXAxisValues ?x] =>
               change (getXAxisValues x) with vs;
               apply in_map_iff in H as (v & Hv & Hin);
               exists v; split; [exact Hin|]; cbn; now rewrite Hv
           end|]).
  contradiction.
Qed.

Lemma enumerated_segment (xAxisType : string) (r : ProjectRecord) :
  In xAxisType X_AXIS_TYPES -> enumerated r ->
  exists v reg, In v (getXAxisValues xAxisType) /\ In reg REGIONS /\
                matchesPair xAxisType v reg r = true /\
                forall v' reg', matchesPair xAxisType v' reg' r = true ->
                                v' = v /\ reg' = reg.
Proof.
  intros Hx Henum.
  destruct (enumerated_field xAxisType r Hx Henum) as (v & Hv & Hf).
  destruct Henum as (_ & Hr & _).
  apply in_map_iff in Hr as (reg & Hreg & Hin).
  exists v, reg. split; [exact Hv|]. split; [exact Hin|].
  unfold matchesPair, hasValue. rewrite Hf, <- Hreg. split.
  - now rewrite !strict_eq_refl.
  - intros v' reg'. rewrite andb_true_iff, !strict_eq_true.
    intros [E1 E2]. split; congruence.
Qed.

Lemma enumerated_charted (xAxisType : string) (r : ProjectRecord) :
  In xAxisType X_AXIS_TYPES -> enumerated r -> chartedb xAxisType r = true.
Proof.
  intros Hx Henum.
  destruct (enumerated_segment xAxisType r Hx Henum) as (v & reg & Hv & Hreg & Hm & _).
  unfold matchesPair in Hm. apply andb_true_iff in Hm as [Hval Hregion].
  unfold chartedb. apply andb_true_iff. split; apply existsb_exists; eauto.
Qed.

(** C1: for every list of records of the data model, every stage, every
    cutoff date and each of the five grouping dimensions, the chart has one
    row per grouping value; the row of value [v] carries, for every region,
    the number of filtered records with value [v] and that region; every
    filtered record lies in the segment of exactly one (value, region) pair;
    and the sum over all rows of all region counts is the number of filtered
    records. *)
Theorem chart_counts_partition (records : list ProjectRecord) (stage_ : string)
        (cutoff_ : Z) (xAxisType : string) :
  In xAxisType X_AXIS_TYPES ->
  Forall enumerated records ->
  let filtered_ := filterRecords records stage_ cutoff_ in
  let chart := chartData filtered_ xAxisType in
  (forall i v, nth_error (getXAxisValues xAxisType) i = Some v ->
     exists row, nth_error chart i = Some row /\
       get_prop xAxisType row = str v /\
       forall reg, In reg REGIONS ->
         get_prop reg row
         = num (Z.of_nat (List.length (filter (matchesPair xAxisType v reg) filtered_)))) /\
  List.length chart = List.length (getXAxisValues xAxisType) /\
  (forall r, In r filtered_ ->
     exists v reg, In v (getXAxisValues xAxisType) /\ In reg REGIONS /\
                   matchesPair xAxisType v reg r = true /\
                   forall v' reg', matchesPair xAxisType v' reg' r = true ->
                                   v' = v /\ reg' = reg) /\
  chartTotal chart = Z.of_nat (List.length filtered_).
Proof.
  intros Hx Hrecs filtered_ chart.
  assert (Hfil : forall r, In r filtered_ -> enumerated r).
  { intros r Hr. apply filterRecords_In in Hr as (Hr & _).
    rewrite Forall_forall in Hrecs. now apply Hrecs. }
  destruct (chart_counts_charted filtered_ xAxisType Hx) as (Hcells & Hlen & Htotal).
  split; [exact Hcells|]. split; [exact Hlen|]. split.
  - intros r Hr. apply enumerated_segment; auto.
  - fold chart in Htotal. rewrite Htotal, filter_all; [reflexivity|].
    apply forallb_forall. intros r Hr. apply enumerated_charted; auto.
Qed.

Lemma chart_counts_partition_witness :
  In "Expert" X_AXIS_TYPES /\
  Forall enumerated sample_records /\
  chartTotal (chartData (filterRecords sample_records "Active" 1692224000000) "Expert")
  = 2.
Proof.
  assert (H : In "Expert" X_AXIS_TYPES) by (simpl; tauto).
  assert (He : Forall enumerated sample_records)
    by (repeat (apply Forall_cons; [unfold enumerated; simpl; auto 12|]);
        apply Forall_nil).
  split; [exact H|]. split; [exact He|].
  destruct (chart_counts_partition sample_records "Active" 1692224000000 "Expert" H He)
    as (_ & _ & _ & Htotal).
  rewrite Htotal. reflexivity.
Defined.

(** Outside the data model the total can fall short: a record of a region
    the chart has no column for is in no segment. *)
Lemma chart_total_misses_stray_record :
  let filtered_ := filterRecords [stray_record] "Active" 0 in
  List.length filtered_ = 1%nat /\
  chartTotal (chartData filtered_ "Industry") = 0 /\
  chartTotal (chartData filtered_ "Industry") <> Z.of_nat (List.length filtered_).
Proof. vm_compute. repeat split. discriminate. Qed.

(** The chart of the standalone variant is the industry chart. *)
Lemma standalone_chartData_total (filtered_ : list ProjectRecord) :
  chartTotal (Standalone.chartData filtered_)
  = Z.of_nat (List.length (filter (chartedb "Industry") filtered_)).
Proof.
  rewrite <- segment_total.
  change (getXAxisValues "Industry") with INDUSTRIES.
  unfold chartTotal, Standalone.chartData. rewrite map_map.
  apply sumZ_ext_in. intros v _. reflexivity.
Qed.

(** ** Grouping by region *)

Lemma segmentCount_region_off_diagonal l v reg :
  reg <> v -> segmentCount l "Region" v reg = 0.
Proof.
  intros Hne. unfold segmentCount.
  rewrite (filter_ext _ (fun _ => false)), filter_false; [reflexivity|].
  intros r. change (inSegment "Region" v reg r)
    with ((region r === str v) && (region r === str reg)).
  destruct (region r === str v) eqn:E1; [|reflexivity].
  destruct (region r === str reg) eqn:E2; [|reflexivity].
  apply strict_eq_true in E1, E2. congruence.
Qed.

Lemma segmentCount_region_diagonal l v :
  segmentCount l "Region" v v
  = Z.of_nat (List.length (filter (fun r => region r === str v) l)).
Proof.
  unfold segmentCount. f_equal. f_equal. apply filter_ext. intros r.
  change (inSegment "Region" v v r) with ((region r === str v) && (region r === str v)).
  now destruct (region r === str v).
Qed.

(** C9: grouped by region the chart is diagonal.  The row of region [v] has
    count 0 in the column of every other region, so its total is the count in
    its own column, which is the number of filtered records of region [v]. *)
Theorem region_chart_diagonal (filtered_ : list ProjectRecord) (row : object) (v : string) :
  In row (chartData filtered_ "Region") ->
  get_prop "Region" row = str v ->
  (forall reg, In reg REGIONS -> reg <> v -> get_prop reg row = num 0) /\
  rowTotal row = rowCount row v /\
  rowCount row v = Z.of_nat (List.length (filter (fun r => region r === str v) filtered_)).
Proof.
  intros Hrow Hv.
  assert (Hx : In "Region" X_AXIS_TYPES) by (simpl; tauto).
  rewrite chartData_rows in Hrow by assumption.
  apply in_map_iff in Hrow as (v' & <- & Hv').
  rewrite rowOf_get_category in Hv. injection Hv as ->.
  change (getXAxisValues "Region") with REGIONS in Hv'.
  split; [|split].
  - intros reg Hreg Hne. rewrite rowOf_get_region by assumption.
    now rewrite segmentCount_region_off_diagonal.
  - rewrite rowTotal_rowOf by assumption.
    unfold rowCount. rewrite rowOf_get_region by assumption.
    simpl in Hv'.
    repeat (destruct Hv' as [<-|Hv'];
            [cbn [sumZ REGIONS REGION_COLORS map fst fold_right];
             repeat match goal with
                    | |- context [segmentCount ?l "Region" ?a ?b] =>
                        rewrite (segmentCount_region_off_diagonal l a b) by discriminate
                    end; lia|]).
    contradiction.
  - unfold rowCount. rewrite rowOf_get_region by assumption.
    apply segmentCount_region_diagonal.
Qed.

Lemma region_chart_diagonal_witness :
  let filtered_ := filterRecords sample_records "Active" 1692224000000 in
  let row := rowOf filtered_ "Region" "APAC" in
  In row (chartData filtered_ "Region") /\
  get_prop "EMEA" row = num 0 /\
  rowTotal row = 1.
Proof.
  intros filtered_ row.
  assert (H1 : In row (chartData filtered_ "Region")).
  { vm_compute. right. left. reflexivity. }
  assert (H2 : get_prop "Region" row = str "APAC") by reflexivity.
  destruct (region_chart_diagonal filtered_ row "APAC" H1 H2) as (Hoff & Htot & Hown).
  split; [exact H1|]. split.
  - apply Hoff; [simpl; tauto|discriminate].
  - rewrite Htot, Hown. reflexivity.
Defined.

(** ** Clicking a segment *)

Lemma chartData_industry_first filtered_ :
  nth_error (chartData filtered_ "Industry") 0 = Some (rowOf filtered_ "Industry" "Retail").
Proof. reflexivity. Qed.

(** C4, as the code has it: grouped by industry, the Retail bar is the bar at
    index 0, and a click on its EMEA segment selects
    [{ xAxisValue: "Retail", region: "EMEA" }]; at every later render the table
    then holds exactly the records of the current stage, dated at or after the
    cutoff of that render, whose industry is Retail and whose region is
    EMEA. *)
Theorem click_retail_emea getMonth setMonth (st : State) (now now' : Z) :
  s_xAxisType st = "Industry" ->
  let st' := barClick getMonth setMonth "EMEA" 0 now st in
  (exists row, nth_error (chartData_of getMonth setMonth st now) 0 = Some row /\
               get_prop "Industry" row = str "Retail") /\
  s_selected st' = Some (mkSelection (str "Retail") "EMEA") /\
  tableRows_of getMonth setMonth st' now'
  = filter (fun r => (industry r === str "Retail") && (region r === str "EMEA"))
           (filtered getMonth setMonth st now') /\
  (forall r, In r (tableRows_of getMonth setMonth st' now') <->
     In r (s_records st) /\
     stage r = str (s_stage st) /\
     cutoff getMonth setMonth st now' <= date r /\
     industry r = str "Retail" /\
     region r = str "EMEA").
Proof.
  intros Hx st'.
  assert (Hsel : s_selected st' = Some (mkSelection (str "Retail") "EMEA")).
  { unfold st', barClick, chartData_of. rewrite Hx. reflexivity. }
  assert (Hrows : tableRows_of getMonth setMonth st' now'
                  = filter (fun r => (industry r === str "Retail")
                                     && (region r === str "EMEA"))
                           (filtered getMonth setMonth st now')).
  { unfold tableRows_of. rewrite Hsel.
    change (s_xAxisType st') with (s_xAxisType st). rewrite Hx. reflexivity. }
  split; [|split; [|split]].
  - unfold chartData_of. rewrite Hx. eexists. split; reflexivity.
  - exact Hsel.
  - exact Hrows.
  - intros r. rewrite Hrows, filter_In, andb_true_iff, !strict_eq_true.
    unfold filtered. rewrite filterRecords_In. tauto.
Qed.

Lemma click_retail_emea_witness :
  s_xAxisType sample_state = "Industry" /\
  tableRows_of sample_getMonth sample_setMonth
    (barClick sample_getMonth sample_setMonth "EMEA" 0 sample_now sample_state)
    sample_now
  = [ mkRecord 1 "PRJ-2" (str "Retail") (str "EMEA") (str "Active") 1699000000000
               (str "Core") (str "Ann") (str "🙂") ].
Proof.
  split; [reflexivity|].
  destruct (click_retail_emea sample_getMonth sample_setMonth sample_state
                              sample_now sample_now eq_refl) as (_ & _ & Hrows & _).
  rewrite Hrows. reflexivity.
Defined.

(** C4 as stated fails: the click stores the label of the bar, "Retail", not
    "Retretail"; with "Retretail" selected the table would be empty; and a
    Retail, EMEA record of the current stage dated before the cutoff is not
    shown. *)
Lemma click_selects_retail_not_retretail :
  let st' := barClick sample_getMonth sample_setMonth "EMEA" 0 sample_now sample_state in
  let old := mkRecord 4 "PRJ-5" (str "Retail") (str "EMEA") (str "Active") 1600000000000
                      (str "Core") (str "Evan") (str "🙁") in
  s_selected st' <> Some (mkSelection (str "Retretail") "EMEA") /\
  tableRows_of sample_getMonth sample_setMonth
    (setSelected (Some (mkSelection (str "Retretail") "EMEA")) sample_state) sample_now
  = [] /\
  (In old (s_records sample_state) /\ industry old = str "Retail" /\
   region old = str "EMEA" /\ stage old = str (s_stage sample_state) /\
   ~ In old (tableRows_of sample_getMonth sample_setMonth st' sample_now)).
Proof.
  vm_compute. split; [discriminate|]. split; [reflexivity|].
  repeat split; try tauto.
  intros [H|[]]. discriminate.
Qed.

(** ** The mock data generator *)

Section GeneratorFacts.

Variables industries regions products experts csatValues stages : list string.
Variables start today : Z.

(** The loop appends one record per iteration and makes seven draws for it. *)
Lemma mockLoop_records n : forall id_ out src k,
  mockLoop industries regions products experts csatValues stages start today
           n id_ out src k
  = ((out ++ mockRecords industries regions products experts csatValues stages
                         start today n id_ src k)%list,
     (7 * n + k)%nat).
Proof.
  induction n as [|n IH]; intros id_ out src k.
  - simpl. unfold ret. now rewrite app_nil_r.
  - change (mockLoop industries regions products experts csatValues stages start today
                     (S n) id_ out src k)
      with (mockLoop industries regions products experts csatValues stages start today
                     n (id_ + 1)
                     (out ++ [mockRecord industries regions products experts csatValues
                                         stages start today id_ src k])%list
                     src (7 + k)%nat).
    rewrite IH. rewrite <- app_assoc. simpl app.
    f_equal. lia.
Qed.

Lemma mockRecords_length n : forall id_ src k,
  List.length (mockRecords industries regions products experts csatValues stages
                           start today n id_ src k) = n.
Proof. induction n as [|n IH]; intros; simpl; [reflexivity|]. f_equal. apply IH. Qed.

Lemma mockRecords_Forall (P : ProjectRecord -> Prop) src :
  (forall id_ k, P (mockRecord industries regions products experts csatValues stages
                               start today id_ src k)) ->
  forall n id_ k,
  Forall P (mockRecords industries regions products experts csatValues stages
                        start today n id_ src k).
Proof.
  intros H. induction n as [|n IH]; intros; simpl; constructor; [apply H|apply IH].
Qed.

Lemma mockRecords_ids n : forall id_ src k,
  map id (mockRecords industries regions products experts csatValues stages
                      start today n id_ src k)
  = map (fun j => id_ + Z.of_nat j) (seq 0 n).
Proof.
  induction n as [|n IH]; intros id_ src k; [reflexivity|].
  simpl. f_equal; [lia|]. rewrite IH, <- seq_shift, map_map.
  apply map_ext. intros j. lia.
Qed.

End GeneratorFacts.

Lemma createMockData_records getMonth setMonth industries regions products experts
      csatValues monthsBack today src k :
  fst (createMockData getMonth setMonth industries regions products experts csatValues
                      monthsBack today src k)
  = mockRecords industries regions products experts csatValues STAGES
                (addMonths getMonth setMonth today
                           (- match monthsBack with Some m => m | None => 3 end))
                today 220 1 src k.
Proof. unfold createMockData. now rewrite mockLoop_records. Qed.

(** The generator of the standalone variant is the same loop, on its own
    fixed lists. *)
Lemma standalone_mockLoop industries regions products experts stages start today n :
  forall id_ out src k,
  Standalone.mockLoop industries regions products experts stages start today n id_ out src k
  = mockLoop industries regions products experts CSAT_VALUES stages start today
             n id_ out src k.
Proof.
  induction n as [|n IH]; intros id_ out src k; [reflexivity|].
  simpl. unfold bind, Math_random, randChoice, ret. simpl. apply IH.
Qed.

Lemma standalone_createMockData getMonth setMonth industries regions monthsBack today src k :
  Standalone.createMockData getMonth setMonth industries regions monthsBack today src k
  = createMockData getMonth setMonth industries regions PRODUCTS EXPERTS CSAT_VALUES
                   monthsBack today src k.
Proof. unfold Standalone.createMockData, createMockData. apply standalone_mockLoop. Qed.
Lemma pick_In (arr : list string) (u : Q) :
  arr <> [] -> (0 <= u)%Q -> (u < 1)%Q ->
  exists s, pick arr u = str s /\ In s arr.
Proof.
  intros Hne H0 H1. unfold pick, array_get.
  set (L := Z.of_nat (List.length arr)).
  assert (HL : 0 < L) by (destruct arr; [congruence|unfold L; simpl List.length; lia]).
  set (i := Qfloor (u * inject_Z L)).
  assert (Hq0 : (0 <= u * inject_Z L)%Q).
  { apply Qmult_le_0_compat; [assumption|]. change 0%Q with (inject_Z 0).
    rewrite <- Zle_Qle. lia. }
  assert (Hi0 : 0 <= i).
  { change 0 with (Qfloor 0). now apply Qfloor_resp_le. }
  assert (Hi1 : i < L).
  { rewrite Zlt_Qlt. apply Qle_lt_trans with (u * inject_Z L)%Q; [apply Qfloor_le|].
    rewrite <- (Qmult_1_l (inject_Z L)) at 2.
    apply Qmult_lt_compat_r; [|assumption].
    change 0%Q with (inject_Z 0). rewrite <- Zlt_Qlt. lia. }
  destruct (i <? 0) eqn:E; [apply Z.ltb_lt in E; lia|].
  destruct (nth_error arr (Z.to_nat i)) as [s|] eqn:En.
  - exists s. split; [reflexivity|]. eapply nth_error_In; eassumption.
  - apply nth_error_None in En. unfold L in Hi1. lia.
Qed.

Lemma Qtrunc_between (a b : Z) (q : Q) :
  (inject_Z a <= q)%Q -> (q <= inject_Z b)%Q -> a <= Qtrunc q <= b.
Proof.
  intros Ha Hb. unfold Qtrunc. destruct (Qle_bool 0 q).
  - split.
    + rewrite <- (Qfloor_Z a). now apply Qfloor_resp_le.
    + rewrite <- (Qfloor_Z b). now apply Qfloor_resp_le.
  - split.
    + rewrite <- (Qceiling_Z a). now apply Qceiling_resp_le.
    + rewrite <- (Qceiling_Z b). now apply Qceiling_resp_le.
Qed.

Lemma mock_date_range (start today : Z) (u : Q) :
  start <= today -> (0 <= u)%Q -> (u < 1)%Q ->
  start <= Qtrunc (inject_Z start + u * inject_Z (today - start)) <= today.
Proof.
  intros Hst H0 H1. apply Qtrunc_between.
  - assert (0 <= u * inject_Z (today - start))%Q.
    { apply Qmult_le_0_compat; [assumption|]. change 0%Q with (inject_Z 0).
      rewrite <- Zle_Qle. lia. }
    lra.
  - assert (u * inject_Z (today - start) <= 1 * inject_Z (today - start))%Q.
    { apply Qmult_le_compat_r; [lra|]. change 0%Q with (inject_Z 0).
      rewrite <- Zle_Qle. lia. }
    unfold Z.sub in *. rewrite inject_Z_plus, inject_Z_opp in *. lra.
Qed.

Lemma pick_member (arr : list string) (u : Q) :
  arr <> [] -> (0 <= u)%Q -> (u < 1)%Q -> In (pick arr u) (map str arr).
Proof.
  intros Hne H0 H1. destruct (pick_In arr u Hne H0 H1) as (s & -> & Hs).
  now apply in_map.
Qed.

Lemma sample_source_unit : in_unit_interval sample_source.
Proof.
  intros n. unfold sample_source, Qle, Qlt. cbn [Qnum Qden].
  pose proof (Nat.mod_upper_bound (n * 37) 101 ltac:(discriminate)). lia.
Qed.

Lemma mockRecords_valid (start today : Z) (src : RandomSource) :
  in_unit_interval src -> start <= today ->
  forall n id_ k,
  Forall (valid_record start today)
         (mockRecords INDUSTRIES REGIONS PRODUCTS EXPERTS CSAT_VALUES STAGES start today
                      n id_ src k).
Proof.
  intros Hsrc Hstart. apply mockRecords_Forall. intros id_ j.
  unfold valid_record, mockRecord.
  cbn [industry region stage product expert csat date].
  repeat match goal with
         | |- _ <= Qtrunc _ <= _ =>
             apply mock_date_range; solve [assumption | apply Hsrc]
         | |- _ /\ _ => split
         | |- In (pick _ _) _ => apply pick_member; [discriminate|apply Hsrc|apply Hsrc]
         end.
Qed.

Lemma mockRecords_labels industries regions products experts csatValues stages
      (start today : Z) (src : RandomSource) (k : nat) :
  let out := mockRecords industries regions products experts csatValues stages
                         start today 220 1 src k in
  map id out = map Z.of_nat (seq 1 220) /\
  NoDup (map id out) /\
  Forall (fun r => project r = "PRJ-" ++ toString (id r + 1)) out /\
  map project out = map (fun j => "PRJ-" ++ toString (Z.of_nat j)) (seq 2 220) /\
  ~ In "PRJ-1" (map project out).
Proof.
  intros out.
  assert (Hids : map id out = map Z.of_nat (seq 1 220)).
  { unfold out. rewrite mockRecords_ids. reflexivity. }
  assert (Hlab : Forall (fun r => project r = "PRJ-" ++ toString (id r + 1)) out).
  { unfold out. apply mockRecords_Forall. reflexivity. }
  assert (Hproj : map project out
                  = map (fun j => "PRJ-" ++ toString (Z.of_nat j)) (seq 2 220)).
  { transitivity (map (fun i => "PRJ-" ++ toString (i + 1)) (map id out)).
    - rewrite map_map. apply map_ext_in. intros r Hr.
      rewrite Forall_forall in Hlab. now apply Hlab.
    - rewrite Hids. vm_compute. reflexivity. }
  split; [exact Hids|]. split; [|split; [exact Hlab|split; [exact Hproj|]]].
  - rewrite Hids. apply Injective_map_NoDup; [|apply seq_NoDup].
    intros a b. apply Nat2Z.inj.
  - rewrite Hproj. intros Hin.
    assert (Hall : forallb (fun s => negb (String.eqb s "PRJ-1"))
                     (map (fun j => "PRJ-" ++ toString (Z.of_nat j)) (seq 2 220)) = true)
      by (vm_compute; reflexivity).
    rewrite forallb_forall in Hall. specialize (Hall _ Hin).
    now rewrite String.eqb_refl in Hall.
Qed.

(** C8: called with the fixed enumerations and a lookback of [monthsBack]
    months, on draws from [0, 1) and with the start of the window not after
    the current time, the generator returns 220 records, each with industry,
    region, stage, product, expert and CSAT symbol from its enumeration and
    with a date from the start of the window to the current time. *)
Theorem createMockData_valid getMonth setMonth (monthsBack today : Z)
        (src : RandomSource) (k : nat) :
  in_unit_interval src ->
  addMonths getMonth setMonth today (- monthsBack) <= today ->
  let out := fst (createMockData getMonth setMonth INDUSTRIES REGIONS PRODUCTS EXPERTS
                                 CSAT_VALUES (Some monthsBack) today src k) in
  List.length out = 220%nat /\
  Forall (valid_record (addMonths getMonth setMonth today (- monthsBack)) today) out.
Proof.
  intros Hsrc Hstart out. unfold out. rewrite createMockData_records. split.
  - apply mockRecords_length.
  - now apply mockRecords_valid.
Qed.

Lemma createMockData_valid_witness :
  let out := fst (createMockData sample_getMonth sample_setMonth INDUSTRIES REGIONS
                                 PRODUCTS EXPERTS CSAT_VALUES (Some 3) sample_now
                                 sample_source 0%nat) in
  in_unit_interval sample_source /\
  addMonths sample_getMonth sample_setMonth sample_now (- 3) <= sample_now /\
  List.length out = 220%nat /\
  Forall (valid_record (addMonths sample_getMonth sample_setMonth sample_now (- 3))
                       sample_now) out.
Proof.
  assert (H : addMonths sample_getMonth sample_setMonth sample_now (- 3) <= sample_now)
    by (vm_compute; discriminate).
  split; [exact sample_source_unit|]. split; [exact H|].
  exact (createMockData_valid sample_getMonth sample_setMonth 3 sample_now
                              sample_source 0%nat sample_source_unit H).
Defined.

(** The generator of the standalone variant gives records of the same kind. *)
Lemma standalone_createMockData_valid getMonth setMonth (monthsBack today : Z)
      (src : RandomSource) (k : nat) :
  in_unit_interval src ->
  addMonths getMonth setMonth today (- monthsBack) <= today ->
  let out := fst (Standalone.createMockData getMonth setMonth INDUSTRIES REGIONS
                                            (Some monthsBack) today src k) in
  List.length out = 220%nat /\
  Forall (valid_record (addMonths getMonth setMonth today (- monthsBack)) today) out.
Proof.
  intros Hsrc Hstart. rewrite standalone_createMockData, createMockData_records. split.
  - apply mockRecords_length.
  - now apply mockRecords_valid.
Qed.

(** C10: whatever the enumerations, the lookback, the time and the draws, the
    ids of the generated records are 1, 2, ..., 220 in this order, hence
    without duplicates, and the record of id [k] is labelled "PRJ-" followed
    by [k + 1]: the labels are PRJ-2, ..., PRJ-221 and PRJ-1 is not among
    them. *)
Theorem createMockData_ids_labels getMonth setMonth
        (industries regions products experts csatValues : list string)
        (monthsBack : option Z) (today : Z) (src : RandomSource) (k : nat) :
  let out := fst (createMockData getMonth setMonth industries regions products experts
                                 csatValues monthsBack today src k) in
  map id out = map Z.of_nat (seq 1 220) /\
  NoDup (map id out) /\
  Forall (fun r => project r = "PRJ-" ++ toString (id r + 1)) out /\
  map project out = map (fun j => "PRJ-" ++ toString (Z.of_nat j)) (seq 2 220) /\
  ~ In "PRJ-1" (map project out).
Proof. intros out. unfold out. rewrite createMockData_records. apply mockRecords_labels. Qed.

(** The same holds in the standalone variant. *)
Lemma standalone_createMockData_ids_labels getMonth setMonth
      (industries regions : list string)
      (monthsBack : option Z) (today : Z) (src : RandomSource) (k : nat) :
  let out := fst (Standalone.createMockData getMonth setMonth industries regions
                                            monthsBack today src k) in
  map id out = map Z.of_nat (seq 1 220) /\
  NoDup (map id out) /\
  Forall (fun r => project r = "PRJ-" ++ toString (id r + 1)) out /\
  map project out = map (fun j => "PRJ-" ++ toString (Z.of_nat j)) (seq 2 220) /\
  ~ In "PRJ-1" (map project out).
Proof.
  intros out. unfold out.
  rewrite standalone_createMockData, createMockData_records. apply mockRecords_labels.
Qed.

(** ** The chart of the generated records *)

Lemma member_existsb (a : value) (vs : list string) :
  In a (map str vs) -> existsb (fun v => a === str v) vs = true.
Proof.
  intros H. apply in_map_iff in H as (v & <- & Hv).
  apply existsb_exists. exists v. split; [assumption|apply strict_eq_refl].
Qed.

Lemma valid_record_charted (start today : Z) (xAxisType : string) (r : ProjectRecord) :
  In xAxisType X_AXIS_TYPES -> valid_record start today r -> chartedb xAxisType r = true.
Proof.
  intros Hx (Hi & Hr & _ & Hp & He & Hc & _). unfold chartedb.
  rewrite (member_existsb _ _ Hr), andb_true_r.
  simpl in Hx.
  repeat (destruct Hx as [<-|Hx]; [now apply member_existsb|]).
  contradiction.
Qed.

(** For the records the component generates at mount, every later render, at
    any stage, granularity and grouping dimension, charts every filtered
    record: the counts of the chart sum to the number of filtered records. *)
Lemma chart_total_of_generated getMonth setMonth (today : Z) (src : RandomSource)
      (k : nat) (st : State) (now : Z) :
  in_unit_interval src ->
  addMonths getMonth setMonth today (- 3) <= today ->
  s_records st = s_records (fst (mount getMonth setMonth today src k)) ->
  In (s_xAxisType st) X_AXIS_TYPES ->
  chartTotal (chartData_of getMonth setMonth st now)
  = Z.of_nat (List.length (filtered getMonth setMonth st now)).
Proof.
  intros Hsrc Hstart Hrecs Hx.
  unfold chartData_of. rewrite chartTotal_chartData, segment_total by assumption.
  rewrite filter_all; [reflexivity|].
  apply forallb_forall. intros r Hr.
  apply filterRecords_In in Hr as (Hr & _).
  rewrite Hrecs in Hr. unfold mount, bind, ret in Hr.
  pose proof (createMockData_records getMonth setMonth INDUSTRIES REGIONS PRODUCTS
                EXPERTS CSAT_VALUES (Some (timeWindowMonths "month")) today src k) as Hgen.
  destruct (createMockData _ _ _ _ _ _ _ _ _ _ _) as [recs k'].
  simpl in Hr, Hgen. subst recs.
  pose proof (mockRecords_valid _ today src Hsrc Hstart 220 1 k) as Hvalid.
  rewrite Forall_forall in Hvalid.
  eapply valid_record_charted; [assumption|]. apply Hvalid. exact Hr.
Qed.

(** ** Chart and table together *)

Lemma matchesXAxis_hasValue xAxisType v reg r :
  matchesXAxis xAxisType (mkSelection (str v) reg) r = hasValue xAxisType v r.
Proof.
  unfold matchesXAxis, hasValue, fieldOf. cbn [xAxisValue].
  repeat match goal with
         | |- context [String.eqb ?a ?b] => destruct (String.eqb a b)
         end; reflexivity.
Qed.

Lemma tableRows_matchesPair filtered_ xAxisType v reg :
  tableRows filtered_ (Some (mkSelection (str v) reg)) xAxisType
  = filter (matchesPair xAxisType v reg) filtered_.
Proof.
  unfold tableRows. apply filter_ext. intros r.
  unfold matchesPair. now rewrite matchesXAxis_hasValue.
Qed.

(** X1: a click on the segment of region [reg] of the bar at index [idx]
    selects the label of that bar and that region, and the table of the same
    render then has as many rows as the chart shows in the clicked segment. *)
Theorem click_table_matches_segment getMonth setMonth (st : State) (now : Z)
        (reg : string) (idx : nat) (v : string) :
  In (s_xAxisType st) X_AXIS_TYPES ->
  In reg REGIONS ->
  nth_error (getXAxisValues (s_xAxisType st)) idx = Some v ->
  let st' := barClick getMonth setMonth reg idx now st in
  s_selected st' = Some (mkSelection (str v) reg) /\
  exists row, nth_error (chartData_of getMonth setMonth st now) idx = Some row /\
              num (Z.of_nat (List.length (tableRows_of getMonth setMonth st' now)))
              = get_prop reg row.
Proof.
  intros Hx Hreg Hv st'.
  assert (Hrow : nth_error (chartData_of getMonth setMonth st now) idx
                 = Some (rowOf (filtered getMonth setMonth st now) (s_xAxisType st) v)).
  { unfold chartData_of. rewrite chartData_rows by assumption.
    now apply map_nth_error. }
  assert (Hsel : s_selected st' = Some (mkSelection (str v) reg)).
  { unfold st', barClick. rewrite Hrow, rowOf_get_category. reflexivity. }
  split; [exact Hsel|].
  eexists. split; [exact Hrow|].
  rewrite rowOf_get_region by assumption.
  unfold tableRows_of. rewrite Hsel.
  change (s_xAxisType st') with (s_xAxisType st).
  change (filtered getMonth setMonth st' now) with (filtered getMonth setMonth st now).
  now rewrite tableRows_matchesPair, segmentCount_matchesPair.
Qed.

Lemma click_table_matches_segment_witness :
  let st' := barClick sample_getMonth sample_setMonth "APAC" 0 sample_now sample_state in
  In (s_xAxisType sample_state) X_AXIS_TYPES /\
  In "APAC" REGIONS /\
  s_selected st' = Some (mkSelection (str "Retail") "APAC") /\
  List.length (tableRows_of sample_getMonth sample_setMonth st' sample_now) = 1%nat.
Proof.
  intros st'.
  assert (Hx : In (s_xAxisType sample_state) X_AXIS_TYPES) by (simpl; tauto).
  assert (Hr : In "APAC" REGIONS) by (simpl; tauto).
  split; [exact Hx|]. split; [exact Hr|].
  destruct (click_table_matches_segment sample_getMonth sample_setMonth sample_state
              sample_now "APAC" 0 "Retail" Hx Hr eq_refl) as (Hsel & _).
  split; [exact Hsel|reflexivity].
Defined.

(** X2: a click whose index is past the last bar stores [undefined] as the
    selected value; the table then holds the filtered records of the clicked
    region whose grouping field is itself [undefined], so it is empty when no
    record has an undefined grouping field. *)
Theorem click_past_last_bar getMonth setMonth (st : State) (now : Z)
        (reg : string) (idx : nat) :
  (List.length (getXAxisValues (s_xAxisType st)) <= idx)%nat ->
  let st' := barClick getMonth setMonth reg idx now st in
  s_selected st' = Some (mkSelection undefined reg) /\
  (forall r, In r (tableRows_of getMonth setMonth st' now) ->
             fieldOf (s_xAxisType st) r = Some undefined /\ region r = str reg) /\
  (Forall (fun r => fieldOf (s_xAxisType st) r <> Some undefined) (s_records st) ->
   tableRows_of getMonth setMonth st' now = []).
Proof.
  intros Hidx st'.
  assert (Hsel : s_selected st' = Some (mkSelection undefined reg)).
  { unfold st', barClick, chartData_of, chartData.
    replace (nth_error _ idx) with (@None object); [reflexivity|].
    symmetry. apply nth_error_None. now rewrite length_map. }
  assert (Hrows : forall r, In r (tableRows_of getMonth setMonth st' now) ->
            In r (s_records st) /\
            fieldOf (s_xAxisType st) r = Some undefined /\ region r = str reg).
  { intros r. unfold tableRows_of. rewrite Hsel.
    change (s_xAxisType st') with (s_xAxisType st).
    change (filtered getMonth setMonth st' now) with (filtered getMonth setMonth st now).
    simpl. rewrite filter_In, andb_true_iff, strict_eq_true, fieldOf_matchesXAxis.
    unfold filtered. rewrite filterRecords_In. cbn [xAxisValue sel_region]. tauto. }
  split; [exact Hsel|]. split.
  - intros r Hr. now apply Hrows.
  - intros Hdef. rewrite Forall_forall in Hdef.
    destruct (tableRows_of getMonth setMonth st' now) as [|r l] eqn:E; [reflexivity|].
    destruct (Hrows r) as (Hin & Hf & _); [apply in_eq|].
    now apply Hdef in Hin.
Qed.

Lemma click_past_last_bar_witness :
  let st' := barClick sample_getMonth sample_setMonth "EMEA" 3 sample_now sample_state in
  (List.length (getXAxisValues (s_xAxisType sample_state)) <= 3)%nat /\
  s_selected st' = Some (mkSelection undefined "EMEA") /\
  tableRows_of sample_getMonth sample_setMonth st' sample_now = [].
Proof.
  intros st'.
  assert (H : (List.length (getXAxisValues (s_xAxisType sample_state)) <= 3)%nat)
    by (simpl; lia).
  split; [exact H|].
  destruct (click_past_last_bar sample_getMonth sample_setMonth sample_state sample_now
              "EMEA" 3 H) as (Hsel & _ & Hempty).
  split; [exact Hsel|]. apply Hempty.
  repeat constructor; discriminate.
Defined.

(** ** Filters compose *)

Lemma filter_filter_andb {A} (p q : A -> bool) (l : list A) :
  filter p (filter q l) = filter (fun a => q a && p a) l.
Proof.
  induction l as [|a l IH]; simpl; [reflexivity|].
  destruct (q a); simpl; [destruct (p a)|]; now rewrite IH.
Qed.

(** X3: filtering a filtered list again gives, for the same stage, the
    filter at the later of the two cutoffs, and nothing for another stage;
    and the drill-down of a filtered list is the filter of the drill-down. *)
Theorem filters_compose (records : list ProjectRecord) (s1 s2 : string) (c1 c2 : Z)
        (selected : option Selection) (xAxisType : string) :
  filterRecords (filterRecords records s1 c1) s2 c2
  = (if String.eqb s1 s2 then filterRecords records s1 (Z.max c1 c2) else []) /\
  tableRows (filterRecords records s1 c1) selected xAxisType
  = filterRecords (tableRows records selected xAxisType) s1 c1.
Proof.
  split.
  - unfold filterRecords. rewrite filter_filter_andb.
    destruct (String.eqb_spec s1 s2) as [<-|Hne].
    + apply filter_ext. intros r.
      destruct (stage r === str s1); simpl; [|reflexivity].
      destruct (Z.geb_spec (date r) c1), (Z.geb_spec (date r) c2),
               (Z.geb_spec (date r) (Z.max c1 c2)); simpl; try reflexivity; lia.
    + rewrite (filter_ext _ (fun _ => false)); [apply filter_false|].
      intros r. destruct (stage r === str s1) eqn:E1; [|reflexivity].
      destruct (stage r === str s2) eqn:E2; [|simpl; apply andb_false_r].
      apply strict_eq_true in E1, E2. congruence.
  - destruct selected as [sel|]; [|reflexivity].
    unfold tableRows, filterRecords. rewrite !filter_filter_andb.
    apply filter_ext. intros r. apply andb_comm.
Qed.

(** X4: the three stage filters select pairwise disjoint sets of records,
    and on records whose stage is one of the three they split the records
    dated at or after the cutoff: the three counts add up to their number. *)
Theorem stages_partition (records : list ProjectRecord) (cutoff_ : Z) :
  (forall s1 s2 r, s1 <> s2 -> In r (filterRecords records s1 cutoff_) ->
                   ~ In r (filterRecords records s2 cutoff_)) /\
  (Forall (fun r => In (stage r) (map str STAGES)) records ->
   (List.length (filterRecords records "Closed" cutoff_)
    + List.length (filterRecords records "Active" cutoff_)
    + List.length (filterRecords records "Proposal" cutoff_))%nat
   = List.length (filter (fun r => date r >=? cutoff_) records)).
Proof.
  split.
  - intros s1 s2 r Hne H1 H2.
    apply filterRecords_In in H1 as (_ & H1 & _).
    apply filterRecords_In in H2 as (_ & H2 & _). congruence.
  - induction 1 as [|r l Hr _ IH]; [reflexivity|].
    unfold filterRecords in *. simpl filter.
    simpl in Hr. destruct Hr as [<-|[<-|[<-|[]]]]; simpl;
      destruct (date r >=? cutoff_); simpl; lia.
Qed.

Lemma stages_partition_witness :
  Forall (fun r => In (stage r) (map str STAGES)) sample_records /\
  (List.length (filterRecords sample_records "Closed" 1692224000000)
   + List.length (filterRecords sample_records "Active" 1692224000000)
   + List.length (filterRecords sample_records "Proposal" 1692224000000))%nat
  = 3%nat.
Proof.
  assert (H : Forall (fun r => In (stage r) (map str STAGES)) sample_records)
    by (repeat constructor; simpl; tauto).
  split; [exact H|].
  rewrite (proj2 (stages_partition sample_records 1692224000000) H). reflexivity.
Defined.

(** ** Segmented controls *)

Lemma Segmented_nth value_ options i b :
  nth_error (Segmented value_ options) i = Some b ->
  exists o, nth_error options i = Some o /\
            b = mkButton (opt_value o) (String.eqb (opt_value o) value_)
                         (opt_label o) (opt_value o).
Proof.
  unfold Segmented. rewrite map_map, nth_error_map.
  destruct (nth_error options i) as [o|]; [|discriminate].
  intros [= <-]. exists o. split; [reflexivity|]. now destruct o.
Qed.

(** X5: a segmented control has one button per option, and when the option
    values are distinct, pressing a button and rendering again with the value
    it passed to [onChange] highlights that button and no other. *)
Theorem Segmented_press_highlights (options : list SegOption) (value_ : string)
        (i : nat) (b : Button) :
  NoDup (map opt_value options) ->
  nth_error (Segmented value_ options) i = Some b ->
  List.length (Segmented value_ options) = List.length options /\
  forall j b', nth_error (Segmented (b_arg b) options) j = Some b' ->
               (b_active b' = true <-> j = i).
Proof.
  intros Hnd Hb. split; [unfold Segmented; now rewrite !length_map|].
  apply Segmented_nth in Hb as (o & Ho & ->). cbn [b_arg].
  intros j b' Hb'. apply Segmented_nth in Hb' as (o' & Ho' & ->). cbn [b_active].
  rewrite String.eqb_eq. split.
  - intros Heq. rewrite NoDup_nth_error in Hnd. symmetry. apply Hnd.
    + rewrite length_map. apply nth_error_Some. congruence.
    + rewrite !nth_error_map, Ho, Ho'. simpl. congruence.
  - intros ->. congruence.
Qed.

Lemma Segmented_press_highlights_witness :
  NoDup (map opt_value TIME_OPTIONS) /\
  map b_active (Segmented "quarter" TIME_OPTIONS) = [false; true; false] /\
  forall j b', nth_error (Segmented "quarter" TIME_OPTIONS) j = Some b' ->
               (b_active b' = true <-> j = 1%nat).
Proof.
  assert (Hnd : NoDup (map opt_value TIME_OPTIONS))
    by (repeat constructor; simpl; intuition discriminate).
  split; [exact Hnd|]. split; [reflexivity|].
  exact (proj2 (Segmented_press_highlights TIME_OPTIONS "month" 1
                  (mkButton "quarter" false "Quarter" "quarter") Hnd eq_refl)).
Defined.

(** ** Sessions *)

Lemma existsb_eqb_In (x : string) (l : list string) :
  existsb (String.eqb x) l = true -> In x l.
Proof.
  intros H. apply existsb_exists in H as (y & Hy & E).
  apply String.eqb_eq in E. now subst.
Qed.

Section Sessions.

Variable getMonth : Z -> Z.
Variable setMonth : Z -> Z -> Z.

Lemma dispatch_invariant records0 now e sys sys' :
  page_invariant records0 sys ->
  dispatch getMonth setMonth now e sys = Some sys' ->
  page_invariant records0 sys'.
Proof.
  destruct sys as [st timers]. intros (Hs & Hg & Hx & Hsel & Ht & Hr) Hd.
  destruct e as [i|i|x| |reg idx|]; unfold dispatch in Hd.
  - unfold Segmented, STAGE_OPTIONS in Hd.
    destruct i as [|[|[|i]]]; simpl in Hd; try (destruct i; discriminate);
      injection Hd as <-; simpl; repeat split; auto.
  - unfold Segmented, TIME_OPTIONS in Hd.
    destruct i as [|[|[|i]]]; simpl in Hd; try (destruct i; discriminate);
      injection Hd as <-; simpl; repeat split; auto.
  - destruct (s_isLoading st) eqn:El; [discriminate|].
    destruct (existsb (String.eqb x) X_AXIS_TYPES) eqn:Ex; [|discriminate].
    injection Hd as <-. apply existsb_eqb_In in Ex.
    simpl. repeat split; auto.
  - destruct timers as [|timers']; [discriminate|]. injection Hd as <-.
    simpl. repeat split; auto.
    destruct (s_isLoading st); [injection Ht as ->; reflexivity|discriminate].
  - destruct (existsb (String.eqb reg) REGIONS) eqn:Er; [|discriminate].
    injection Hd as <-. apply existsb_eqb_In in Er.
    unfold page_invariant, barClick.
    cbn [setSelected s_stage s_granularity s_xAxisType s_selected s_isLoading s_records].
    repeat split; auto.
    unfold chartData_of. rewrite chartData_rows, nth_error_map by assumption.
    destruct (nth_error (getXAxisValues (s_xAxisType st)) idx) as [v|] eqn:Ev; simpl.
    + right. exists v. split; [eapply nth_error_In; eassumption|].
      apply rowOf_get_category.
    + now left.
  - destruct (s_selected st); [|discriminate]. injection Hd as <-.
    simpl. repeat split; auto.
Qed.

Lemma run_invariant records0 events : forall sys sys',
  page_invariant records0 sys ->
  run getMonth setMonth events sys = Some sys' ->
  page_invariant records0 sys'.
Proof.
  induction events as [|[now e] events IH]; intros sys sys' Hinv Hrun; simpl in Hrun.
  - now injection Hrun as <-.
  - destruct (dispatch getMonth setMonth now e sys) as [sys1|] eqn:Hd; [|discriminate].
    eapply IH; [|eassumption]. eapply dispatch_invariant; eassumption.
Qed.

Lemma mount_invariant today src k :
  page_invariant (s_records (fst (mount getMonth setMonth today src k)))
                 (fst (mount getMonth setMonth today src k), 0%nat).
Proof.
  unfold mount, bind, ret. destruct (createMockData _ _ _ _ _ _ _ _ _ _ _).
  simpl. repeat split; auto.
Qed.

End Sessions.

(** X6: whatever the user does after the mount, the stage, the granularity
    and the grouping dimension stay within their enumerations, the record
    list stays the one generated at mount, and the selection, when there is
    one, is a region of the chart with a bar label of the current grouping
    dimension (or [undefined], after a click past the last bar). *)
Theorem session_state_well_formed getMonth setMonth (today : Z) (src : RandomSource)
        (k : nat) (events : list (Z * event)) (st : State) (timers : nat) :
  run getMonth setMonth events (fst (mount getMonth setMonth today src k), 0%nat)
  = Some (st, timers) ->
  In (s_stage st) STAGES /\
  In (s_granularity st) GRANULARITIES /\
  In (s_xAxisType st) X_AXIS_TYPES /\
  selection_of_chart (s_xAxisType st) (s_selected st) /\
  s_records st = s_records (fst (mount getMonth setMonth today src k)).
Proof.
  intros Hrun.
  pose proof (run_invariant getMonth setMonth _ events _ _
                (mount_invariant getMonth setMonth today src k) Hrun)
    as (H1 & H2 & H3 & H4 & _ & H6).
  repeat split; assumption.
Qed.

(** X7: at most one timer is ever pending, and one is pending exactly while
    the loading flag is on, because the select is disabled while it is; so a
    timer that fires finds the flag on, switches it off and leaves no timer
    behind. *)
Theorem session_single_timer getMonth setMonth (today : Z) (src : RandomSource)
        (k : nat) (events : list (Z * event)) (st : State) (timers : nat) :
  run getMonth setMonth events (fst (mount getMonth setMonth today src k), 0%nat)
  = Some (st, timers) ->
  timers = (if s_isLoading st then 1%nat else 0%nat) /\
  (forall now x, s_isLoading st = true ->
     dispatch getMonth setMonth now (SelectXAxis x) (st, timers) = None) /\
  (forall now st' timers',
     dispatch getMonth setMonth now TimerFired (st, timers) = Some (st', timers') ->
     s_isLoading st = true /\ s_isLoading st' = false /\ timers' = 0%nat).
Proof.
  intros Hrun.
  pose proof (run_invariant getMonth setMonth _ events _ _
                (mount_invariant getMonth setMonth today src k) Hrun)
    as (_ & _ & _ & _ & Ht & _).
  split; [exact Ht|]. split.
  - intros now x Hl. simpl. now rewrite Hl.
  - intros now st' timers' Hd. simpl in Hd.
    destruct timers as [|t]; [discriminate|]. injection Hd as <- <-.
    destruct (s_isLoading st); [|discriminate].
    injection Ht as ->. auto.
Qed.

Lemma session_state_well_formed_witness :
  exists st timers,
    run sample_getMonth sample_setMonth sample_session (sample_mount, 0%nat)
    = Some (st, timers) /\
    In (s_stage st) STAGES /\
    In (s_granularity st) GRANULARITIES /\
    In (s_xAxisType st) X_AXIS_TYPES /\
    selection_of_chart (s_xAxisType st) (s_selected st) /\
    s_records st = s_records sample_mount.
Proof.
  destruct (run sample_getMonth sample_setMonth sample_session (sample_mount, 0%nat))
    as [[st timers]|] eqn:E.
  - exists st, timers. split; [reflexivity|].
    exact (session_state_well_formed sample_getMonth sample_setMonth sample_now
             sample_source 0%nat sample_session st timers E).
  - assert (H : completed (run sample_getMonth sample_setMonth sample_session
                               (sample_mount, 0%nat)) = true)
      by (vm_compute; reflexivity).
    rewrite E in H. discriminate H.
Defined.

Lemma session_single_timer_witness :
  exists st timers,
    run sample_getMonth sample_setMonth (firstn 4 sample_session) (sample_mount, 0%nat)
    = Some (st, timers) /\
    timers = (if s_isLoading st then 1%nat else 0%nat).
Proof.
  destruct (run sample_getMonth sample_setMonth (firstn 4 sample_session)
                (sample_mount, 0%nat)) as [[st timers]|] eqn:E.
  - exists st, timers. split; [reflexivity|].
    exact (proj1 (session_single_timer sample_getMonth sample_setMonth sample_now
                    sample_source 0%nat (firstn 4 sample_session) st timers E)).
  - assert (H : completed (run sample_getMonth sample_setMonth (firstn 4 sample_session)
                               (sample_mount, 0%nat)) = true)
      by (vm_compute; reflexivity).
    rewrite E in H. discriminate H.
Defined.

(** ** Colours *)

Lemma indexOf_from_absent (arr : list string) (v : string) : forall i,
  ~ In v arr -> indexOf_from arr v i = -1.
Proof.
  induction arr as [|a arr IH]; intros i H; simpl; [reflexivity|].
  destruct (String.eqb_spec a v) as [->|Hne].
  - exfalso. apply H. apply in_eq.
  - apply IH. intros Hin. apply H. now apply in_cons.
Qed.

Lemma getXAxisValues_cases (xAxisType : string) :
  xAxisType <> "Region" ->
  In (getXAxisValues xAxisType) [INDUSTRIES; PRODUCTS; EXPERTS; CSAT_VALUES].
Proof.
  intros Hne. unfold getXAxisValues.
  destruct (String.eqb_spec xAxisType "Region"); [contradiction|].
  repeat match goal with
         | |- context [String.eqb ?a ?b] => destruct (String.eqb a b)
         end; simpl; tauto.
Qed.

(** X8: for a grouping dimension other than Region, [getValueColor] gives
    every enumerated value a colour of the palette, different values of the
    dimension get different colours, and a value outside the enumeration gets
    [undefined], since [indexOf] answers -1 and the remainder of -1 is -1. *)
Theorem getValueColor_by_index (xAxisType : string) :
  xAxisType <> "Region" ->
  (forall v, In v (getXAxisValues xAxisType) ->
     exists c, In c COLORS /\ getValueColor xAxisType v = color_value (str c)) /\
  (forall v w, In v (getXAxisValues xAxisType) -> In w (getXAxisValues xAxisType) ->
     getValueColor xAxisType v = getValueColor xAxisType w -> v = w) /\
  (forall v, ~ In v (getXAxisValues xAxisType) ->
     getValueColor xAxisType v = color_value undefined).
Proof.
  intros Hne. pose proof (getXAxisValues_cases xAxisType Hne) as Hcases.
  unfold getValueColor. destruct (String.eqb_spec xAxisType "Region"); [contradiction|].
  split; [|split].
  - intros v Hv. simpl in Hcases.
    destruct Hcases as [E|[E|[E|[E|[]]]]]; rewrite <- E in *; clear E; simpl in Hv;
      repeat (destruct Hv as [<-|Hv];
              [eexists; split; [|reflexivity]; simpl; tauto|]);
      contradiction.
  - intros v w Hv Hw. simpl in Hcases.
    destruct Hcases as [E|[E|[E|[E|[]]]]]; rewrite <- E in *; clear E; simpl in Hv, Hw;
      repeat (destruct Hv as [<-|Hv];
              [repeat (destruct Hw as [<-|Hw];
                       [vm_compute; intros; solve [reflexivity|discriminate]|]);
               contradiction|]);
      contradiction.
  - intros v Hv. unfold indexOf. now rewrite indexOf_from_absent.
Qed.

Lemma getValueColor_by_index_witness :
  "Expert" <> "Region" /\
  getValueColor "Expert" "Evan" = color_value (str "#10b981") /\
  getValueColor "Expert" "Zed" = color_value undefined.
Proof.
  assert (H : "Expert" <> "Region") by discriminate.
  split; [exact H|]. split; [reflexivity|].
  apply (proj2 (proj2 (getValueColor_by_index "Expert" H))).
  simpl. intuition discriminate.
Defined.

Lemma get_prop_absent (k : string) (o : object) :
  ~ In k (map fst o) -> get_prop k o = undefined.
Proof.
  induction o as [|[k' v] o IH]; simpl; intros H; [reflexivity|].
  destruct (String.eqb_spec k k') as [->|Hne]; [tauto|].
  apply IH. tauto.
Qed.

Lemma existsb_eqb_absent (x : string) (l : list string) :
  ~ In x l -> existsb (String.eqb x) l = false.
Proof.
  intros H. destruct (existsb (String.eqb x) l) eqn:E; [|reflexivity].
  now apply existsb_eqb_In in E.
Qed.

(** X9: for the Region dimension, [getValueColor] gives each region the
    colour [REGION_COLORS] holds for it, which is the fill of its bars, and
    the four colours differ; a name that is neither a region nor inherited
    from [Object.prototype] gets the grey "#6b7280", and an inherited name
    gets the inherited member instead of a colour. *)
Theorem getValueColor_region (value_ : string) :
  (In value_ REGIONS ->
     getValueColor "Region" value_ = color_value (get_prop value_ REGION_COLORS) /\
     exists c, get_prop value_ REGION_COLORS = str c /\ c <> "#6b7280" /\
     forall w, In w REGIONS -> getValueColor "Region" w = color_value (str c) -> w = value_) /\
  (~ In value_ REGIONS -> ~ In value_ OBJECT_PROTOTYPE_KEYS ->
     getValueColor "Region" value_ = color_value (str "#6b7280")) /\
  (In value_ OBJECT_PROTOTYPE_KEYS ->
     getValueColor "Region" value_ = color_inherited value_).
Proof.
  split; [|split].
  - intros Hv. simpl in Hv.
    repeat (destruct Hv as [<-|Hv];
            [split; [reflexivity|]; eexists; split; [reflexivity|];
             split; [discriminate|];
             intros w Hw; simpl in Hw;
             repeat (destruct Hw as [<-|Hw];
                     [vm_compute; intros; solve [reflexivity|discriminate]|]);
             contradiction|]).
    contradiction.
  - intros H1 H2. unfold getValueColor. simpl String.eqb. cbv iota.
    rewrite get_prop_absent by exact H1. simpl truthy. cbv iota.
    now rewrite existsb_eqb_absent.
  - intros H. simpl in H.
    repeat (destruct H as [<-|H]; [reflexivity|]). contradiction.
Qed.

Lemma getValueColor_region_witness :
  In "NA" REGIONS /\
  getValueColor "Region" "NA" = color_value (str "#ef4444") /\
  getValueColor "Region" "ANZ" = color_value (str "#6b7280") /\
  getValueColor "Region" "toString" = color_inherited "toString".
Proof.
  assert (H : In "NA" REGIONS) by (simpl; tauto).
  split; [exact H|]. split; [|split].
  - exact (proj1 (proj1 (getValueColor_region "NA") H)).
  - apply (proj1 (proj2 (getValueColor_region "ANZ"))); simpl; intuition discriminate.
  - apply (proj2 (proj2 (getValueColor_region "toString"))). simpl. tauto.
Defined.

(** ** Rows as objects, for any category key *)

Lemma get_set_same (k : string) (v : value) (o : object) :
  get_prop k (set_prop k v o) = v.
Proof.
  induction o as [|[k' v'] o IH]; simpl.
  - now rewrite String.eqb_refl.
  - destruct (String.eqb k k') eqn:E; simpl; rewrite E; [reflexivity|exact IH].
Qed.

Lemma get_set_other (k k' : string) (v : value) (o : object) :
  k <> k' -> get_prop k (set_prop k' v o) = get_prop k o.
Proof.
  intros Hne. induction o as [|[k0 v0] o IH]; simpl.
  - now rewrite (proj2 (String.eqb_neq k k') Hne).
  - destruct (String.eqb_spec k' k0) as [->|Hk]; simpl.
    + now rewrite (proj2 (String.eqb_neq k k0) Hne).
    + destruct (String.eqb k k0); [reflexivity|exact IH].
Qed.

Lemma fold_set_get (f : string -> value) (regs : list string) : forall row reg,
  get_prop reg (fold_left (fun row r => set_prop r (f r) row) regs row)
  = if in_dec string_dec reg regs then f reg else get_prop reg row.
Proof.
  induction regs as [|a regs IH]; intros row reg; [reflexivity|].
  simpl fold_left. rewrite IH.
  destruct (in_dec string_dec reg regs) as [Hin|Hout];
    destruct (in_dec string_dec reg (a :: regs)) as [Hin'|Hout'];
    try reflexivity.
  - exfalso. apply Hout'. now apply in_cons.
  - destruct Hin' as [->|Hin']; [apply get_set_same|contradiction].
  - apply get_set_other. intros ->. apply Hout'. apply in_eq.
Qed.

Lemma chartData_cells filtered_ xAxisType row reg :
  In row (chartData filtered_ xAxisType) -> In reg REGIONS ->
  exists v, In v (getXAxisValues xAxisType) /\
            get_prop reg row = num (segmentCount filtered_ xAxisType v reg).
Proof.
  intros Hrow Hreg. unfold chartData in Hrow.
  apply in_map_iff in Hrow as (v & <- & Hv). exists v. split; [assumption|].
  rewrite (fold_set_get (fun r => num (segmentCount filtered_ xAxisType v r))).
  destruct (in_dec string_dec reg REGIONS); [reflexivity|contradiction].
Qed.

Lemma chartTotal_zero rows :
  (forall row reg, In row rows -> In reg REGIONS -> get_prop reg row = num 0) ->
  chartTotal rows = 0.
Proof.
  intros H. apply (sumZ_zero rowTotal). intros row Hrow.
  apply (sumZ_zero (rowCount row)). intros reg Hreg.
  unfold rowCount. now rewrite H.
Qed.

(** X10: a grouping dimension outside the five falls to the [default]
    branches: the chart has the three industry bars, every segment of every
    bar counts 0, and the table is empty whatever is selected. *)
Theorem unknown_dimension_charts_nothing (filtered_ : list ProjectRecord)
        (xAxisType : string) :
  ~ In xAxisType X_AXIS_TYPES ->
  List.length (chartData filtered_ xAxisType) = 3%nat /\
  (forall row reg, In row (chartData filtered_ xAxisType) -> In reg REGIONS ->
                   get_prop reg row = num 0) /\
  chartTotal (chartData filtered_ xAxisType) = 0 /\
  (forall selected, tableRows filtered_ selected xAxisType = []).
Proof.
  intros Hx.
  assert (E : forall x, In x X_AXIS_TYPES -> String.eqb xAxisType x = false).
  { intros x Hin. apply String.eqb_neq. intros ->. contradiction. }
  assert (E1 := E "Industry" ltac:(simpl; tauto)).
  assert (E2 := E "Region" ltac:(simpl; tauto)).
  assert (E3 := E "Product" ltac:(simpl; tauto)).
  assert (E4 := E "Expert" ltac:(simpl; tauto)).
  assert (E5 := E "CSAT" ltac:(simpl; tauto)).
  assert (Hcells : forall row reg, In row (chartData filtered_ xAxisType) ->
                     In reg REGIONS -> get_prop reg row = num 0).
  { intros row reg Hrow Hreg.
    destruct (chartData_cells _ _ _ _ Hrow Hreg) as (v & _ & ->).
    unfold segmentCount.
    rewrite (filter_ext _ (fun _ => false)), filter_false; [reflexivity|].
    intros r. unfold inSegment. now rewrite E1, E2, E3, E4, E5. }
  split; [|split; [exact Hcells|split]].
  - unfold chartData, getXAxisValues. rewrite length_map, E1, E2, E3, E4, E5.
    reflexivity.
  - now apply chartTotal_zero.
  - intros [sel|]; [|reflexivity]. unfold tableRows.
    rewrite (filter_ext _ (fun _ => false)); [apply filter_false|].
    intros r. unfold matchesXAxis. now rewrite E1, E2, E3, E4, E5.
Qed.

Lemma unknown_dimension_charts_nothing_witness :
  ~ In "Stage" X_AXIS_TYPES /\
  chartTotal (chartData sample_records "Stage") = 0 /\
  tableRows sample_records (Some (mkSelection (str "Active") "EMEA")) "Stage" = [].
Proof.
  assert (H : ~ In "Stage" X_AXIS_TYPES) by (simpl; intuition discriminate).
  split; [exact H|].
  destruct (unknown_dimension_charts_nothing sample_records "Stage" H)
    as (_ & _ & Htot & Htab).
  split; [exact Htot|apply Htab].
Defined.

(** ** The records of the mount through later renders *)

Lemma mount_records getMonth setMonth today src k :
  s_records (fst (mount getMonth setMonth today src k))
  = mockRecords INDUSTRIES REGIONS PRODUCTS EXPERTS CSAT_VALUES STAGES
                (addMonths getMonth setMonth today (- 3)) today 220 1 src k.
Proof.
  unfold mount, bind, ret.
  pose proof (createMockData_records getMonth setMonth INDUSTRIES REGIONS PRODUCTS
                EXPERTS CSAT_VALUES (Some (timeWindowMonths "month")) today src k) as H.
  destruct (createMockData _ _ _ _ _ _ _ _ _ _ _) as [recs k']. exact H.
Qed.

Lemma filter_ids_distinct (keep : ProjectRecord -> bool) (rows : list ProjectRecord) :
  NoDup (map id rows) -> NoDup (map id (filter keep rows)).
Proof.
  intros Hnd. induction rows as [|r rows IH]; [constructor|].
  simpl in Hnd. apply NoDup_cons_iff in Hnd as [Hfresh Hrest].
  simpl filter. destruct (keep r); [|now apply IH].
  simpl map. apply NoDup_cons; [|now apply IH].
  rewrite in_map_iff. intros (r' & Hid & Hr'). apply Hfresh.
  rewrite <- Hid. apply in_map. apply filter_In in Hr'. tauto.
Qed.

(** X11: if the cutoff of a render is not after the start of the window the
    records were generated for, the date test removes nothing: the filtered
    records are all the records of the current stage.  The generator and
    each render read the clock on their own, so whether the condition holds
    depends on both readings and on the granularity. *)
Theorem window_covering_generation getMonth setMonth (today : Z) (src : RandomSource)
        (k : nat) (st : State) (now : Z) :
  in_unit_interval src ->
  addMonths getMonth setMonth today (- 3) <= today ->
  s_records st = s_records (fst (mount getMonth setMonth today src k)) ->
  cutoff getMonth setMonth st now <= addMonths getMonth setMonth today (- 3) ->
  filtered getMonth setMonth st now
  = filter (fun r => stage r === str (s_stage st)) (s_records st).
Proof.
  intros Hsrc Hstart Hrecs Hcut. unfold filtered, filterRecords.
  apply filter_ext_in. intros r Hr.
  rewrite Hrecs, mount_records in Hr.
  pose proof (mockRecords_valid _ today src Hsrc Hstart 220 1 k) as Hvalid.
  rewrite Forall_forall in Hvalid.
  destruct (Hvalid r Hr) as (_ & _ & _ & _ & _ & _ & Hdate).
  replace (date r >=? cutoff getMonth setMonth st now) with true;
    [apply andb_true_r|].
  symmetry. apply Z.geb_le. lia.
Qed.

Lemma window_covering_generation_witness :
  let st := setGranularity "quarter" sample_mount in
  let now := sample_now + 60000 in
  in_unit_interval sample_source /\
  cutoff sample_getMonth sample_setMonth st now
  <= addMonths sample_getMonth sample_setMonth sample_now (- 3) /\
  filtered sample_getMonth sample_setMonth st now
  = filter (fun r => stage r === str "Active") (s_records sample_mount).
Proof.
  intros st now.
  assert (H1 : addMonths sample_getMonth sample_setMonth sample_now (- 3) <= sample_now)
    by (vm_compute; discriminate).
  assert (H2 : cutoff sample_getMonth sample_setMonth st now
               <= addMonths sample_getMonth sample_setMonth sample_now (- 3))
    by (vm_compute; discriminate).
  split; [exact sample_source_unit|]. split; [exact H2|].
  exact (window_covering_generation sample_getMonth sample_setMonth sample_now
           sample_source 0%nat st now sample_source_unit H1 eq_refl H2).
Defined.

(** X12: the records are generated once, so when the page stays open until
    the cutoff of a render has passed the time of the mount, every record is
    too old: nothing is filtered in, every bar segment counts 0 and the table
    is empty, for every stage, grouping dimension and selection. *)
Theorem window_past_generation getMonth setMonth (today : Z) (src : RandomSource)
        (k : nat) (st : State) (now : Z) :
  in_unit_interval src ->
  addMonths getMonth setMonth today (- 3) <= today ->
  s_records st = s_records (fst (mount getMonth setMonth today src k)) ->
  today < cutoff getMonth setMonth st now ->
  filtered getMonth setMonth st now = [] /\
  chartTotal (chartData_of getMonth setMonth st now) = 0 /\
  tableRows_of getMonth setMonth st now = [].
Proof.
  intros Hsrc Hstart Hrecs Hcut.
  assert (Hnil : filtered getMonth setMonth st now = []).
  { unfold filtered, filterRecords.
    rewrite (filter_ext_in _ (fun _ => false)); [apply filter_false|].
    intros r Hr. rewrite Hrecs, mount_records in Hr.
    pose proof (mockRecords_valid _ today src Hsrc Hstart 220 1 k) as Hvalid.
    rewrite Forall_forall in Hvalid.
    destruct (Hvalid r Hr) as (_ & _ & _ & _ & _ & _ & Hdate).
    replace (date r >=? cutoff getMonth setMonth st now) with false;
      [apply andb_false_r|].
    symmetry. destruct (Z.geb_spec (date r) (cutoff getMonth setMonth st now));
      [lia|reflexivity]. }
  split; [exact Hnil|]. split.
  - unfold chartData_of. rewrite Hnil. apply chartTotal_zero.
    intros row reg Hrow Hreg.
    destruct (chartData_cells _ _ _ _ Hrow Hreg) as (v & _ & ->). reflexivity.
  - unfold tableRows_of. rewrite Hnil. now destruct (s_selected st).
Qed.

Lemma window_past_generation_witness :
  in_unit_interval sample_source /\
  sample_now < cutoff sample_getMonth sample_setMonth sample_mount (sample_now + 10000000000) /\
  filtered sample_getMonth sample_setMonth sample_mount (sample_now + 10000000000) = [].
Proof.
  assert (H1 : addMonths sample_getMonth sample_setMonth sample_now (- 3) <= sample_now)
    by (vm_compute; discriminate).
  assert (H2 : sample_now < cutoff sample_getMonth sample_setMonth sample_mount
                                   (sample_now + 10000000000))
    by (vm_compute; reflexivity).
  split; [exact sample_source_unit|]. split; [exact H2|].
  exact (proj1 (window_past_generation sample_getMonth sample_setMonth sample_now
                  sample_source 0%nat sample_mount (sample_now + 10000000000)
                  sample_source_unit H1 eq_refl H2)).
Defined.

(** X13: in every render of a page whose records are those of a mount, the
    filtered records and the table rows have pairwise distinct ids, so the
    [key] of a table row identifies it. *)
Theorem table_keys_distinct getMonth setMonth (today : Z) (src : RandomSource)
        (k : nat) (st : State) (now : Z) :
  s_records st = s_records (fst (mount getMonth setMonth today src k)) ->
  NoDup (map id (filtered getMonth setMonth st now)) /\
  NoDup (map id (tableRows_of getMonth setMonth st now)).
Proof.
  intros Hrecs.
  assert (Hnd : NoDup (map id (s_records st))).
  { rewrite Hrecs, mount_records.
    exact (proj1 (proj2 (mockRecords_labels INDUSTRIES REGIONS PRODUCTS EXPERTS
                           CSAT_VALUES STAGES _ today src k))). }
  assert (Hf : NoDup (map id (filtered getMonth setMonth st now))).
  { unfold filtered, filterRecords. now apply filter_ids_distinct. }
  split; [exact Hf|].
  unfold tableRows_of, tableRows. destruct (s_selected st); [|constructor].
  now apply filter_ids_distinct.
Qed.

Lemma table_keys_distinct_witness :
  NoDup (map id (filtered sample_getMonth sample_setMonth sample_mount sample_now)).
Proof.
  exact (proj1 (table_keys_distinct sample_getMonth sample_setMonth sample_now
                  sample_source 0%nat sample_mount sample_now eq_refl)).
Defined.

(** ** The generator, draw by draw *)

Lemma mockRecords_nth industries regions products experts csatValues stages start today
      src n : forall id_ k i,
  (i < n)%nat ->
  nth_error (mockRecords industries regions products experts csatValues stages
                         start today n id_ src k) i
  = Some (mockRecord industries regions products experts csatValues stages
                     start today (id_ + Z.of_nat i) src (7 * i + k)%nat).
Proof.
  induction n as [|n IH]; intros id_ k i Hi; [lia|].
  destruct i as [|i]; simpl nth_error.
  - f_equal. f_equal. lia.
  - rewrite IH by lia. f_equal. f_equal; lia.
Qed.

Lemma mockRecords_agree industries regions products experts csatValues stages start today
      src src' n : forall id_ k,
  (forall j, (k <= j < k + 7 * n)%nat -> src j = src' j) ->
  mockRecords industries regions products experts csatValues stages start today
              n id_ src k
  = mockRecords industries regions products experts csatValues stages start today
                n id_ src' k.
Proof.
  induction n as [|n IH]; intros id_ k H; [reflexivity|].
  simpl. f_equal.
  - unfold mockRecord. rewrite !H by lia. reflexivity.
  - apply IH. intros j Hj. apply H. lia.
Qed.

(** X14: the generator makes exactly 1540 draws, seven per record; the record
    at position [i] has id [i + 1], and of the draws made after the [k] before
    the call its date depends only on draw [7 i], its industry on [7 i + 1],
    its region on [7 i + 2], its stage on [7 i + 3], its product on [7 i + 4],
    its expert on [7 i + 5] and its CSAT symbol on [7 i + 6]; so two random
    sources that agree on these 1540 draws give the same records. *)
Theorem createMockData_by_draws getMonth setMonth
        (industries regions products experts csatValues : list string)
        (monthsBack : option Z) (today : Z) (src : RandomSource) (k : nat) :
  let run_ := createMockData getMonth setMonth industries regions products experts
                             csatValues monthsBack today in
  snd (run_ src k) = (1540 + k)%nat /\
  (forall src' i, (i < 220)%nat ->
     exists r r',
       nth_error (fst (run_ src k)) i = Some r /\
       nth_error (fst (run_ src' k)) i = Some r' /\
       id r = Z.of_nat i + 1 /\ id r' = Z.of_nat i + 1 /\
       (src' (7 * i + k)%nat = src (7 * i + k)%nat -> date r' = date r) /\
       (src' (1 + (7 * i + k))%nat = src (1 + (7 * i + k))%nat ->
        industry r' = industry r) /\
       (src' (2 + (7 * i + k))%nat = src (2 + (7 * i + k))%nat ->
        region r' = region r) /\
       (src' (3 + (7 * i + k))%nat = src (3 + (7 * i + k))%nat ->
        stage r' = stage r) /\
       (src' (4 + (7 * i + k))%nat = src (4 + (7 * i + k))%nat ->
        product r' = product r) /\
       (src' (5 + (7 * i + k))%nat = src (5 + (7 * i + k))%nat ->
        expert r' = expert r) /\
       (src' (6 + (7 * i + k))%nat = src (6 + (7 * i + k))%nat ->
        csat r' = csat r)) /\
  (forall src', (forall j, (k <= j < k + 1540)%nat -> src j = src' j) ->
     fst (run_ src' k) = fst (run_ src k)).
Proof.
  intros run_. split; [|split].
  - unfold run_, createMockData. now rewrite mockLoop_records.
  - intros src' i Hi. unfold run_. rewrite !createMockData_records.
    rewrite !mockRecords_nth by assumption.
    eexists. eexists. split; [reflexivity|]. split; [reflexivity|].
    unfold mockRecord.
    cbn [id date industry region stage product expert csat].
    repeat split; try lia; intros ->; reflexivity.
  - intros src' H. unfold run_. rewrite !createMockData_records.
    symmetry. apply mockRecords_agree. intros j Hj. apply H. lia.
Qed.

Lemma Qfloor_bucket (q : Q) (z : Z) :
  (inject_Z z <= q)%Q -> (q < inject_Z z + 1)%Q -> Qfloor q = z.
Proof.
  intros Hlo Hhi.
  assert (z <= Qfloor q).
  { rewrite <- (Qfloor_Z z). now apply Qfloor_resp_le. }
  assert (Qfloor q < z + 1).
  { rewrite Zlt_Qlt, inject_Z_plus.
    apply Qle_lt_trans with q; [apply Qfloor_le|assumption]. }
  lia.
Qed.

Lemma pick_empty (u : Q) : pick [] u = undefined.
Proof.
  unfold pick. replace (Qfloor _) with 0; [reflexivity|].
  symmetry. destruct u as [a b]. unfold Qfloor, Qmult. simpl.
  rewrite Z.mul_0_r. reflexivity.
Qed.

(** X15: [randChoice] makes exactly one draw; on the empty array it returns
    [undefined] whatever the draw; on a non-empty array and a draw in [0, 1)
    it returns an element of the array, never [undefined]; and the draw 0
    returns the first element. *)
Theorem randChoice_member (arr : list string) (src : RandomSource) (k : nat) :
  snd (randChoice arr src k) = S k /\
  (arr = [] -> fst (randChoice arr src k) = undefined) /\
  (arr <> [] -> (0 <= src k)%Q -> (src k < 1)%Q ->
   exists s, In s arr /\ fst (randChoice arr src k) = str s) /\
  (forall a arr', arr = a :: arr' -> (src k == 0)%Q ->
   fst (randChoice arr src k) = str a).
Proof.
  unfold randChoice, bind, Math_random, ret. cbn [fst snd].
  split; [reflexivity|]. split; [|split].
  - intros ->. apply pick_empty.
  - intros Hne H0 H1. destruct (pick_In arr (src k) Hne H0 H1) as (s & Hs & Hin).
    exists s. split; [exact Hin|exact Hs].
  - intros a arr' -> Hu.
    replace (Qfloor _) with 0; [reflexivity|].
    symmetry. apply Qfloor_bucket; rewrite Hu, Qmult_0_l; [apply Qle_refl|reflexivity].
Qed.

Lemma randChoice_member_witness :
  EXPERTS <> [] /\
  (exists s, In s EXPERTS /\ fst (randChoice EXPERTS (fun _ => 7 # 10)%Q 0%nat) = str s) /\
  fst (randChoice EXPERTS (fun _ => 0 # 1)%Q 0%nat) = str "Ann".
Proof.
  assert (Hne : EXPERTS <> []) by discriminate.
  split; [exact Hne|]. split.
  - apply (proj1 (proj2 (proj2 (randChoice_member EXPERTS (fun _ => 7 # 10)%Q 0%nat))) Hne);
      [discriminate|reflexivity].
  - apply (proj2 (proj2 (proj2 (randChoice_member EXPERTS (fun _ => 0 # 1)%Q 0%nat)))
             "Ann" ["Ben"; "Chao"; "Dee"; "Evan"] eq_refl).
    reflexivity.
Defined.

(** X16: when one of the arrays handed to the generator is empty, the field
    drawn from it is [undefined] in every generated record, whatever the
    draws. *)
Theorem createMockData_empty_arrays getMonth setMonth
        (industries regions products experts csatValues : list string)
        (monthsBack : option Z) (today : Z) (src : RandomSource) (k : nat) :
  let out := fst (createMockData getMonth setMonth industries regions products experts
                                 csatValues monthsBack today src k) in
  (industries = [] -> Forall (fun r => industry r = undefined) out) /\
  (regions = [] -> Forall (fun r => region r = undefined) out) /\
  (products = [] -> Forall (fun r => product r = undefined) out) /\
  (experts = [] -> Forall (fun r => expert r = undefined) out) /\
  (csatValues = [] -> Forall (fun r => csat r = undefined) out).
Proof.
  intros out. unfold out. rewrite createMockData_records.
  repeat split; intros ->; apply mockRecords_Forall; intros; apply pick_empty.
Qed.

Lemma createMockData_empty_arrays_witness :
  Forall (fun r => region r = undefined)
         (fst (createMockData sample_getMonth sample_setMonth INDUSTRIES [] PRODUCTS
                              EXPERTS CSAT_VALUES (Some 3) sample_now sample_source 0%nat)).
Proof.
  exact (proj1 (proj2 (createMockData_empty_arrays sample_getMonth sample_setMonth
                         INDUSTRIES [] PRODUCTS EXPERTS CSAT_VALUES (Some 3)
                         sample_now sample_source 0%nat)) eq_refl).
Defined.

(** ** The two variants side by side *)

(** X17: grouped by industry, the component does what the standalone
    variant does: the generators agree when given the standalone's own
    product, expert and CSAT lists; the chart rows carry the same labels and
    the same region counts, under the key "industry" instead of "Industry";
    a click selects the same value; and the same selection gives the same
    table. *)
Theorem standalone_agrees getMonth setMonth (industries regions : list string)
        (monthsBack : option Z) (today : Z) (src : RandomSource) (k : nat)
        (st : State) (now : Z) (reg : string) (idx : nat) (a : value) :
  s_xAxisType st = "Industry" ->
  let filtered_ := filtered getMonth setMonth st now in
  Standalone.createMockData getMonth setMonth industries regions monthsBack today src k
  = createMockData getMonth setMonth industries regions PRODUCTS EXPERTS CSAT_VALUES
                   monthsBack today src k /\
  map (get_prop "industry") (Standalone.chartData filtered_)
  = map (get_prop "Industry") (chartData_of getMonth setMonth st now) /\
  (forall r, map (get_prop r) (map (@tl _) (Standalone.chartData filtered_))
             = map (get_prop r) (map (@tl _) (chartData_of getMonth setMonth st now))) /\
  s_selected (barClick getMonth setMonth reg idx now st)
  = Some (mkSelection (Standalone.sel_industry (standalone_click filtered_ reg idx)) reg) /\
  Standalone.tableRows filtered_ (Some (Standalone.mkSelection a reg))
  = tableRows_of getMonth setMonth (setSelected (Some (mkSelection a reg)) st) now.
Proof.
  intros Hx filtered_. split; [apply standalone_createMockData|].
  unfold barClick, tableRows_of, standalone_click. unfold chartData_of.
  cbn [setSelected s_selected s_xAxisType]. rewrite Hx.
  fold filtered_.
  change (filtered getMonth setMonth _ now) with filtered_.
  split; [reflexivity|]. split; [reflexivity|]. split; [|reflexivity].
  change (chartData filtered_ "Industry")
    with (map (rowOf filtered_ "Industry") INDUSTRIES).
  change (Standalone.chartData filtered_)
    with (map (fun v => ("industry", str v) :: tl (rowOf filtered_ "Industry" v))
              INDUSTRIES).
  rewrite !nth_error_map. cbn [sel_region Standalone.sel_industry].
  destruct (nth_error INDUSTRIES idx); reflexivity.
Qed.

Lemma standalone_agrees_witness :
  s_xAxisType sample_state = "Industry" /\
  Standalone.tableRows (filtered sample_getMonth sample_setMonth sample_state sample_now)
                       (Some (Standalone.mkSelection (str "Retail") "APAC"))
  = tableRows_of sample_getMonth sample_setMonth
                 (setSelected (Some (mkSelection (str "Retail") "APAC")) sample_state)
                 sample_now.
Proof.
  split; [reflexivity|].
  exact (proj2 (proj2 (proj2 (proj2
           (standalone_agrees sample_getMonth sample_setMonth INDUSTRIES REGIONS
              (Some 3) sample_now sample_source 0%nat sample_state sample_now
              "APAC" 0 (str "Retail") eq_refl))))).
Defined.
